(** * Trainer of the seq2seq language model (src/language_models/trainer.py)

    A shallow embedding of the training loop, statement by statement:
    Python exceptions are an error result, the trainer's fields and the
    outside world (file system, collaborator calls, console) are threaded
    as explicit state that survives an exception, and the tensor library,
    the model and the loader are collaborators seen through what the trainer
    observes of them. *)

From Stdlib Require Import ZArith QArith Ascii String List Lia.
From stdpp Require Import base option list strings gmap pretty.

Open Scope string_scope.
Open Scope Z_scope.

(** ** Python exceptions and results *)

(** The dynamic type of a value, as error messages name it. *)
Inductive pytype := TNone | TStr | TInt | TFloat | TTuple | TObject.

Inductive exn :=
| AttributeError (recv : pytype) (attr : string)   (* recv has no attribute attr *)
| NotSubscriptable (recv : pytype)                 (* TypeError: recv[...] *)
| NotCallable (recv : pytype)                      (* TypeError: recv(...) *)
| UnsupportedOperand (op : string) (l r : pytype)  (* TypeError: l op r *)
| NotIterable (recv : pytype)                      (* TypeError: iteration over recv *)
| NotAnInteger (recv : pytype)                     (* TypeError: range(recv) *)
| RaiseNonException                                (* TypeError: raise of a str *)
| KeyError (key : string)
| IndexError
| UnboundLocalError (name : string)
| ZeroDivisionError
| ShapeError                                       (* a batch that does not unpack *)
| External (what : string).                        (* raised inside a collaborator *)

(** The errors of using None as an object: an attribute of None, None[...],
    None(...), iteration over None. *)
Definition none_dereference (e : exn) : bool :=
  match e with
  | AttributeError TNone _ | NotSubscriptable TNone
  | NotCallable TNone | NotIterable TNone => true
  | _ => false
  end.

Inductive result (A : Type) :=
| Ok (a : A)
| Err (e : exn).
Arguments Ok {A} a.
Arguments Err {A} e.

#[global] Instance result_ret : MRet result := fun A a => Ok a.
#[global] Instance result_bind : MBind result := fun A B f m =>
  match m with
  | Ok a => f a
  | Err e => Err e
  end.

(** ** Floating point numbers

    The trainer never inspects a float: it adds losses, divides by a length,
    multiplies two rates and hands values to numpy.  The operations are an
    interface; nothing is assumed of them. *)

Class FloatOps (F : Type) := {
  f_of_Z : Z -> F;            (* an int coerced to float, and float literals *)
  f_add : F -> F -> F;
  f_mul : F -> F -> F;
  f_divn : F -> nat -> F;     (* tensor / len(...) *)
  f_ltb : F -> F -> bool;
  f_eqb : F -> F -> bool
}.

(** What numpy computes for the trainer. *)
Class NumpyOps (F : Type) := {
  np_power : F -> F -> F;     (* np.power(base, exponent) *)
  np_mean : list F -> F;      (* np.mean(np.array(xs)) *)
  f_str : F -> string         (* str(x) *)
}.

(** ** Tensors

    outputs: one entry per timestep, each a batch of rows of scores;
    targets: one row of token ids per example, one column per timestep. *)

Section Loss.
Context {F : Type} `{FloatOps F}.

Definition row := list F.
Definition outputs_t := list (list row).
Definition targets_t := list (list Z).

(** nn.NLLLoss(): applied to the selected rows and the selected targets. *)
Definition Criterion := list row -> list Z -> result F.

(** The value of the local [loss]: the Python number 0 it starts as, or
    the tensor it becomes at the first [+=]. *)
Inductive loss_value :=
| LossZero                (* the number 0, no tensor was ever added *)
| LossVar (x : F).

(** xs[i] for 0 <= i. *)
Definition index {A} (xs : list A) (i : nat) : result A :=
  match xs !! i with
  | Some x => Ok x
  | None => Err IndexError
  end.

(** xs[mask] for a boolean mask: the mask has one entry per element. *)
Definition select {A} (mask : list bool) (xs : list A) : result (list A) :=
  if Nat.eqb (length mask) (length xs)
  then Ok (map snd (filter (fun p => fst p = true) (zip mask xs)))
  else Err IndexError.

(** targets[:, idx] *)
Definition column (targets : targets_t) (idx : nat) : result (list Z) :=
  match mapM (fun r => r !! idx) targets with
  | Some c => Ok c
  | None => Err IndexError
  end.

(** loss += c *)
Definition loss_iadd (loss : loss_value) (c : F) : loss_value :=
  match loss with
  | LossZero => LossVar (f_add (f_of_Z 0) c)
  | LossVar x => LossVar (f_add x c)
  end.

(** loss / n *)
Definition loss_div (loss : loss_value) (n : nat) : result loss_value :=
  match loss with
  | LossZero => if Nat.eqb n 0 then Err ZeroDivisionError else Ok LossZero
  | LossVar x => Ok (LossVar (f_divn x n))
  end.

(** l > 0 and l -= 1 on the numpy array of remaining lengths. *)
Definition active (l : list Z) : list bool := map (fun x => 0 <? x) l.
Definition decrement (l : list Z) : list Z := map Z.pred l.

(** One pass of the loop body at timestep [idx]:
      idxes = l > 0
      loss += criterion(outputs[idx][idxes], targets[idxes, idx])
      l -= 1 *)
Definition loss_step (criterion : Criterion) (outputs : outputs_t)
    (targets : targets_t) (idx : nat) (st : list Z * loss_value)
    : result (list Z * loss_value) :=
  let '(l, loss) := st in
  let idxes := active l in
  out ← index outputs idx;
  rows ← select idxes out;
  col ← column targets idx;
  tgt ← select idxes col;
  c ← criterion rows tgt;
  Ok (decrement l, loss_iadd loss c).

(** for idx in idxs: body *)
Fixpoint loss_loop (criterion : Criterion) (outputs : outputs_t)
    (targets : targets_t) (idxs : list nat) (st : list Z * loss_value)
    : result (list Z * loss_value) :=
  match idxs with
  | [] => Ok st
  | idx :: rest =>
      st' ← loss_step criterion outputs targets idx st;
      loss_loop criterion outputs targets rest st'
  end.

(** def _batch_loss(criterion, outputs, target_lengths, targets):
      loss = 0
      l = np.array(target_lengths)
      for idx in range(len(target_lengths)): ...
      return loss / len(outputs) *)
Definition _batch_loss (criterion : Criterion) (outputs : outputs_t)
    (target_lengths : list Z) (targets : targets_t) : result loss_value :=
  st ← loss_loop criterion outputs targets
         (seq 0 (length target_lengths)) (target_lengths, LossZero);
  loss_div (snd st) (length outputs).

(** The masked loss as the specification words it: one step per output
    timestep [t], the criterion over the examples whose remaining length is
    positive, comparing outputs[t] against targets[:, t]; every remaining
    length decremented after each step; the sum divided by the number of
    output timesteps. *)
Fixpoint masked_nll_steps (criterion : Criterion) (targets : targets_t)
    (t : nat) (steps : list (list row)) (remaining : list Z)
    (sum : loss_value) : result loss_value :=
  match steps with
  | [] => Ok sum
  | out_t :: later =>
      rows ← select (active remaining) out_t;
      col ← column targets t;
      tgt ← select (active remaining) col;
      nll ← criterion rows tgt;
      masked_nll_steps criterion targets (S t) later
        (decrement remaining) (loss_iadd sum nll)
  end.

Definition masked_nll_reference (criterion : Criterion) (outputs : outputs_t)
    (answer_lengths : list Z) (targets : targets_t) : result loss_value :=
  sum ← masked_nll_steps criterion targets 0 outputs answer_lengths LossZero;
  loss_div sum (length outputs).

End Loss.

(** ** Values

    A hyperparameter is an int, a float or a str; Params is the dict
    [self.params]. *)

Inductive pval (F : Type) :=
| PInt (z : Z)
| PFloat (x : F)
| PStr (s : string).
Arguments PInt {F} z.
Arguments PFloat {F} x.
Arguments PStr {F} s.

Definition pval_type {F} (v : pval F) : pytype :=
  match v with
  | PInt _ => TInt
  | PFloat _ => TFloat
  | PStr _ => TStr
  end.

(** s * n for a str and an int: n copies, none when n <= 0. *)
Fixpoint str_repeat (s : string) (n : nat) : string :=
  match n with
  | O => ""
  | S n' => s ++ str_repeat s n'
  end.

(** a * b *)
Definition py_mul {F} `{FloatOps F} (a b : pval F) : result (pval F) :=
  match a, b with
  | PInt x, PInt y => Ok (PInt (x * y))
  | PInt x, PFloat y => Ok (PFloat (f_mul (f_of_Z x) y))
  | PFloat x, PInt y => Ok (PFloat (f_mul x (f_of_Z y)))
  | PFloat x, PFloat y => Ok (PFloat (f_mul x y))
  | PStr s, PInt n | PInt n, PStr s => Ok (PStr (str_repeat s (Z.to_nat n)))
  | _, _ => Err (UnsupportedOperand "*" (pval_type a) (pval_type b))
  end.

(** x < v for a float x *)
Definition py_float_lt {F} `{FloatOps F} (x : F) (v : pval F) : result bool :=
  match v with
  | PInt z => Ok (f_ltb x (f_of_Z z))
  | PFloat y => Ok (f_ltb x y)
  | PStr _ => Err (UnsupportedOperand "<" TFloat TStr)
  end.

(** n == v for an int n *)
Definition py_int_eq {F} `{FloatOps F} (n : Z) (v : pval F) : bool :=
  match v with
  | PInt z => Z.eqb n z
  | PFloat y => f_eqb (f_of_Z n) y
  | PStr _ => false
  end.

(** str(v), as the percent-s conversion renders it *)
Definition py_str {F} `{NumpyOps F} (v : pval F) : string :=
  match v with
  | PInt z => pretty z
  | PFloat x => f_str x
  | PStr s => s
  end.

(** d[k] on [self.params], which is a dict or None *)
Definition subscript {F} (d : option (gmap string (pval F))) (k : string)
    : result (pval F) :=
  match d with
  | None => Err (NotSubscriptable TNone)
  | Some m =>
      match m !! k with
      | Some v => Ok v
      | None => Err (KeyError k)
      end
  end.

(** Token sequences as the loader yields them, and as tensors. *)
Definition seqs := list (list Z).

Record tensor := {
  t_cuda : bool;        (* dtype torch.cuda.FloatTensor rather than torch.FloatTensor *)
  t_data : seqs
}.

(** What [_var] may be applied to: loader data, a Variable it made, None. *)
Inductive tensor_arg :=
| OfSeqs (s : seqs)
| OfVariable (v : tensor)
| OfNone.

(** The values of a variable named review_seqs: the loader's list of
    review batches, the object map(_var, x), or None. *)
Inductive reviews :=
| Reviews (r : list seqs)
| MapVar (x : reviews)
| NoReviews.

(** The arguments of one call of the model:
    self.model(quesion_seqs, review_seqs, answer_seqs, teacher_forcing);
    a question that is [None] and reviews that are [NoReviews] are the
    Python None. *)
Record model_args := {
  m_question : option tensor;
  m_review : reviews;
  m_answer : tensor;
  m_teacher_forcing : bool
}.

(** A batch of the loader, in the shape of each variant. *)
Inductive inputs :=
| BatchA (answer_seqs : seqs) (answer_lengths : list Z)
| BatchQA (answer_seqs : seqs) (answer_lengths : list Z) (quesion_seqs : seqs)
| BatchQAR (answer_seqs : seqs) (answer_lengths : list Z) (quesion_seqs : seqs)
    (review_seqs : list seqs).

Record datetime := {
  year : nat; month : nat; day : nat; hour : nat; minute : nat; second : nat
}.

Section Objects.
Context {F : Type}.

Inductive parg := AInt (z : Z) | AFloat (x : F) | AStr (s : string).

(** What the trainer does to its collaborators, in order. *)
Inductive event :=
| Seeded (seed : Z)                        (* np.random.seed, torch.manual_seed *)
| ZeroGrad                                 (* optimizer.zero_grad() *)
| ModelCalled (a : model_args)             (* self.model(...) *)
| Backward (loss : F)                      (* loss.backward() *)
| Step (lr : pval F)                       (* optimizer.step() *)
| Printed (fmt : string) (args : list parg).

(** An object other than None and str, by what the trainer uses of it. *)
Record object := {
  obj_eq : string -> bool;                 (* o == s *)
  obj_call : option (list event -> model_args -> result (@outputs_t F));
  obj_parameters : bool;                   (* o.parameters() exists *)
  obj_state_dict : option string;          (* o.state_dict() *)
  obj_cuda : bool                          (* o.cuda() exists, and returns o *)
}.

(** The value of [self.model]. *)
Inductive pyobj :=
| PyNone
| PyStr (s : string)
| PyObj (o : object).

(** m == c for a str constant c *)
Definition py_eq (m : pyobj) (c : string) : bool :=
  match m with
  | PyNone => false
  | PyStr s => String.eqb s c
  | PyObj o => obj_eq o c
  end.

Definition pyobj_type (m : pyobj) : pytype :=
  match m with
  | PyNone => TNone
  | PyStr _ => TStr
  | PyObj _ => TObject
  end.

(** optim.SGD(parameters, lr=...) *)
Record Optimizer := { opt_lr : pval F }.

Inductive artifact :=
| TorchSaved (state_dict : string)         (* torch.save *)
| Text (s : string)                        (* json.dump into a file opened 'w' *)
| Pickled (vocab : option (list string)).  (* pickle.dump *)

Record Trainer := {
  save_model_every : Z;
  print_every : Z;
  params : option (gmap string (pval F));
  dataloader : list inputs;
  vocab : option (list string);
  model : pyobj;
  loss : list F;
  perplexity : list F;
  criterion : @Criterion F;
  optimizer : option Optimizer;
  vocabs : option (list string)
}.

Record World := {
  events : list event;                     (* oldest first *)
  dirs : gset string;                      (* directories that exist *)
  files : gmap string artifact;            (* files and what was written *)
  now : datetime;                          (* datetime.now() *)
  randoms : nat -> F;                      (* the draws of np.random.random() *)
  drawn : nat;                             (* how many were consumed *)
  refused : string -> bool                 (* directories the system will not make *)
}.

End Objects.
Arguments parg F : clear implicits.
Arguments event F : clear implicits.
Arguments object F : clear implicits.
Arguments pyobj F : clear implicits.
Arguments Optimizer F : clear implicits.
Arguments Trainer F : clear implicits.
Arguments World F : clear implicits.

(** ** The environment of the module

    Module [constants] (imported as C) is not among the sources: the names
    the trainer uses are the fields of a record it is parametrised by.
    Hyperparameter keys, variant tags and path components are str. *)

Record constants := {
  VOCAB_SIZE : string;
  HDIM : string;
  OUTPUT_MAX_LEN : string;
  H_LAYERS : string;
  DROPOUT : string;
  TEACHER_FORCING_RATIO : string;
  EPOCHS : string;
  DECAY_START_EPOCH : string;
  LR_DECAY : string;
  LR : string;
  MODEL_NAME : string;
  LM_ANSWERS : string;
  LM_QUESTION_ANSWERS : string;
  LM_QUESTION_ANSWERS_REVIEWS : string;
  BASE_PATH : string;
  SAVED_MODEL_FILENAME : string;
  SAVED_PARAMS_FILENAME : string;
  SAVED_VOCAB_FILENAME : string
}.

(** The libraries the module calls, and its global USE_CUDA. *)
Record Env (F : Type) := {
  env_constants : constants;
  USE_CUDA : bool;                                   (* torch.cuda.is_available() *)
  LongTensor : tensor_arg -> result seqs;            (* torch.LongTensor(...) *)
  LM : pval F -> pval F -> pval F -> pval F -> pval F -> result (object F);
  NLLLoss : @Criterion F;                            (* nn.NLLLoss() *)
  json_dump : option (gmap string (pval F)) -> string
    (* the text json.dump(obj, fp, indent=4, sort_keys=True) writes *)
}.
Arguments env_constants {F} e.
Arguments USE_CUDA {F} e.
Arguments LongTensor {F} e.
Arguments LM {F} e.
Arguments NLLLoss {F} e.
Arguments json_dump {F} e.

(** ** Statements: state passing with exceptions

    A statement runs on a state and leaves a state, also when it raises. *)

Definition Action (S A : Type) : Type := S -> result A * S.

#[global] Instance action_ret {S} : MRet (Action S) := fun A a s => (Ok a, s).
#[global] Instance action_bind {S} : MBind (Action S) := fun A B f m s =>
  match m s with
  | (Ok a, s') => f a s'
  | (Err e, s') => (Err e, s')
  end.

Definition raise {S A} (e : exn) : Action S A := fun s => (Err e, s).
Definition lift {S A} (r : result A) : Action S A := fun s => (r, s).
Definition gets {S A} (f : S -> A) : Action S A := fun s => (Ok (f s), s).
Definition modify {S} (f : S -> S) : Action S unit := fun s => (Ok tt, f s).

(** for x in xs: body, with the loop-carried locals [acc] *)
Fixpoint for_each {S X L} (body : X -> L -> Action S L) (xs : list X) (acc : L)
    : Action S L :=
  match xs with
  | [] => mret acc
  | x :: rest => acc' ← body x acc; for_each body rest acc'
  end.

(** enumerate(xs) *)
Definition enumerate {X} (xs : list X) : list (Z * X) :=
  zip (map Z.of_nat (seq 0 (length xs))) xs.

(** range(n) *)
Definition range (n : Z) : list Z := map Z.of_nat (seq 0 (Z.to_nat n)).

Section State.
Context {F : Type}.

Record state := { self : Trainer F; world : World F }.

Definition with_self (f : Trainer F -> Trainer F) (s : state) : state :=
  {| self := f (self s); world := world s |}.
Definition with_world (f : World F -> World F) (s : state) : state :=
  {| self := self s; world := f (world s) |}.

(** self.optimizer = o *)
Definition set_optimizer (o : option (Optimizer F)) (t : Trainer F) : Trainer F :=
  {| save_model_every := save_model_every t; print_every := print_every t;
     params := params t; dataloader := dataloader t; vocab := vocab t;
     model := model t; loss := loss t; perplexity := perplexity t;
     criterion := criterion t; optimizer := o; vocabs := vocabs t |}.

(** self.loss.append(x) *)
Definition append_loss (x : F) (t : Trainer F) : Trainer F :=
  {| save_model_every := save_model_every t; print_every := print_every t;
     params := params t; dataloader := dataloader t; vocab := vocab t;
     model := model t; loss := loss t ++ [x]; perplexity := perplexity t;
     criterion := criterion t; optimizer := optimizer t; vocabs := vocabs t |}.

(** self.perplexity.append(x) *)
Definition append_perplexity (x : F) (t : Trainer F) : Trainer F :=
  {| save_model_every := save_model_every t; print_every := print_every t;
     params := params t; dataloader := dataloader t; vocab := vocab t;
     model := model t; loss := loss t; perplexity := perplexity t ++ [x];
     criterion := criterion t; optimizer := optimizer t; vocabs := vocabs t |}.

Definition add_event (e : event F) (w : World F) : World F :=
  {| events := events w ++ [e]; dirs := dirs w; files := files w;
     now := now w; randoms := randoms w; drawn := drawn w;
     refused := refused w |}.

(** One directory more. *)
Definition add_dir (p : string) (w : World F) : World F :=
  {| events := events w; dirs := {[p]} ∪ dirs w; files := files w;
     now := now w; randoms := randoms w; drawn := drawn w;
     refused := refused w |}.

Definition write_file (p : string) (a : artifact) (w : World F) : World F :=
  {| events := events w; dirs := dirs w; files := <[p:=a]> (files w);
     now := now w; randoms := randoms w; drawn := drawn w;
     refused := refused w |}.

Definition consume_random (w : World F) : World F :=
  {| events := events w; dirs := dirs w; files := files w;
     now := now w; randoms := randoms w; drawn := S (drawn w);
     refused := refused w |}.

Definition emit (e : event F) : Action state unit :=
  modify (with_world (add_event e)).

(** print(fmt, args) *)
Definition print (fmt : string) (args : list (parg F)) : Action state unit :=
  emit (Printed fmt args).

(** np.random.random() *)
Definition np_random : Action state F := fun s =>
  (Ok (randoms (world s) (drawn (world s))), with_world consume_random s).

End State.
Arguments state F : clear implicits.

(** ** The module's functions *)

Section Methods.
Context {F : Type} `{FloatOps F} `{NumpyOps F} (env : Env F).

Local Abbreviation C := (env_constants env).

(** def _var(variable):
      dtype = torch.cuda.FloatTensor if USE_CUDA else torch.FloatTensor
      return Variable(torch.LongTensor(variable).type(dtype)) *)
Definition _var (variable : tensor_arg) : result tensor :=
  d ← LongTensor env variable;
  Ok {| t_cuda := USE_CUDA env; t_data := d |}.

(** def _perplexity_from_loss(loss): return np.power(2.0, loss) *)
Definition _perplexity_from_loss (loss : F) : F := np_power (f_of_Z 2) loss.

(** def _print_info(epoch, losses, perplexities, corpus) *)
Definition _print_info (epoch : Z) (losses perplexities : list F)
    (corpus : string) : Action (state F) unit :=
  _ ← print "Epoch = %d, [%s] Loss = %.2f"
        [AInt epoch; AStr corpus; AFloat (np_mean losses)];
  print "Epoch = %d, [%s] Perplexity = %.2f"
        [AInt epoch; AStr corpus; AFloat (np_mean perplexities)].

(** os.path.exists(path) *)
Definition path_exists (path : string) (w : World F) : bool :=
  bool_decide (path ∈ dirs w) || bool_decide (is_Some (files w !! path)).

(** The parents of a path, outermost first: its prefixes that end before a
    "/".  The root is taken to exist and is not among them. *)
Fixpoint parents_from (done rest : string) : list string :=
  match rest with
  | EmptyString => []
  | String c rest' =>
      if Ascii.eqb c "/"%char
      then (if String.eqb done "" then [] else [done])
             ++ parents_from (done ++ "/") rest'
      else parents_from (done ++ String c EmptyString) rest'
  end.

Definition parents (path : string) : list string := parents_from "" path.

(** os.mkdir(name), where [head] is the parent of name when it has one: the
    name must be new, the parent a directory, and the system willing. *)
Definition mkdir (name : string) (head : option string) (w : World F)
    : result unit * World F :=
  if path_exists name w then (Err (External "FileExistsError"), w)
  else
    match head with
    | Some h =>
        if bool_decide (h ∈ dirs w) then
          if refused w name then (Err (External "PermissionError"), w)
          else (Ok tt, add_dir name w)
        else if path_exists h w then (Err (External "NotADirectoryError"), w)
        else (Err (External "FileNotFoundError"), w)
    | None =>
        if refused w name then (Err (External "PermissionError"), w)
        else (Ok tt, add_dir name w)
    end.

(** os.makedirs(name) on the chain name, parent, grandparent, ...:
      head = dirname(name)
      if head and not exists(head): makedirs(head)
      mkdir(name) *)
Fixpoint makedirs_chain (chain : list string) (w : World F)
    : result unit * World F :=
  match chain with
  | [] => (Err (External "FileNotFoundError"), w)
  | name :: heads =>
      match heads with
      | [] => mkdir name None w
      | head :: _ =>
          if path_exists head w then mkdir name (Some head) w
          else
            match makedirs_chain heads w with
            | (Ok _, w1) => mkdir name (Some head) w1
            | (Err e, w1) => (Err e, w1)
            end
      end
  end.

(** os.makedirs(path); the empty path is no directory to make. *)
Definition makedirs (path : string) (w : World F) : result unit * World F :=
  if String.eqb path "" then (Err (External "FileNotFoundError"), w)
  else makedirs_chain (path :: reverse (parents path)) w.

(** def _ensure_path(path):
      if not os.path.exists(path): os.makedirs(path) *)
Definition _ensure_path (path : string) : Action (state F) unit := fun s =>
  if path_exists path (world s)
  then (Ok tt, s)
  else
    let '(r, w) := makedirs path (world s) in
    (r, {| self := self s; world := w |}).

(** def _set_random_seeds(seed) *)
Definition _set_random_seeds (seed : Z) : Action (World F) unit :=
  modify (add_event (Seeded seed)).

(** A decimal field of strftime, zero-padded to [width] digits. *)
Definition padded (width : nat) (n : nat) : string :=
  let d := pretty n in
  str_repeat "0" (width - String.length d) ++ d.

(** time.strftime('%Y-%m-%d-%H-%M-%S') *)
Definition strftime (time : datetime) : string :=
  padded 4 (year time) ++ "-" ++ padded 2 (month time) ++ "-" ++
  padded 2 (day time) ++ "-" ++ padded 2 (hour time) ++ "-" ++
  padded 2 (minute time) ++ "-" ++ padded 2 (second time).

(** def _save_dir(self, time):
      time_str = time.strftime('%Y-%m-%d-%H-%M-%S')
      return '%s/%s/%s' % (C.BASE_PATH, self.params[C.MODEL_NAME], time_str) *)
Definition _save_dir (time : datetime) : Action (state F) string :=
  let time_str := strftime time in
  p ← gets (fun s => params (self s));
  name ← lift (subscript p (MODEL_NAME C));
  mret (BASE_PATH C ++ "/" ++ py_str name ++ "/" ++ time_str).

(** fmt & args on a str and a tuple: str has no __and__, tuple no __rand__. *)
Definition str_and_tuple (fmt : string) (args : list string) : result string :=
  Err (UnsupportedOperand "&" TStr TTuple).

(** m.state_dict() *)
Definition state_dict (m : pyobj F) : result string :=
  match m with
  | PyObj o =>
      match obj_state_dict o with
      | Some d => Ok d
      | None => Err (AttributeError TObject "state_dict")
      end
  | _ => Err (AttributeError (pyobj_type m) "state_dict")
  end.

(** def save_model(self):
      save_dir = self._save_dir(datetime.now())
      _ensure_path(save_dir)
      model_filename = '%s/%s' % (save_dir, C.SAVED_MODEL_FILENAME)
      params_filename = '%s/%s' % (save_dir, C.SAVED_PARAMS_FILENAME)
      vocab_filename = '%s/%s' & (save_dir, C.SAVED_VOCAB_FILENAME)
      torch.save(self.model.state_dict(), model_filename)
      with open(params_filename, 'w') as fp:
          json.dump(self.params, fp, indent=4, sort_keys=True)
      with open(vocab_filename, 'wb') as fp:
          pickle.dump(self.vocab, fp, pickle.HIGHEST_PROTOCOL) *)
Definition save_model : Action (state F) unit :=
  time ← gets (fun s => now (world s));
  save_dir ← _save_dir time;
  _ ← _ensure_path save_dir;
  let model_filename := save_dir ++ "/" ++ SAVED_MODEL_FILENAME C in
  let params_filename := save_dir ++ "/" ++ SAVED_PARAMS_FILENAME C in
  vocab_filename ← lift (str_and_tuple "%s/%s" [save_dir; SAVED_VOCAB_FILENAME C]);
  m ← gets (fun s => model (self s));
  sd ← lift (state_dict m);
  _ ← modify (with_world (write_file model_filename (TorchSaved sd)));
  p ← gets (fun s => params (self s));
  _ ← modify (with_world (write_file params_filename (Text (json_dump env p))));
  v ← gets (fun s => vocab (self s));
  modify (with_world (write_file vocab_filename (Pickled v))).

(** m.parameters() *)
Definition parameters (m : pyobj F) : result unit :=
  match m with
  | PyObj o =>
      if obj_parameters o then Ok tt
      else Err (AttributeError TObject "parameters")
  | _ => Err (AttributeError (pyobj_type m) "parameters")
  end.

(** def _set_optimizer(self, lr_decay=1.0):
      self.optimizer = optim.SGD(self.model.parameters(),
                                 lr=self.params[C.LR] * lr_decay)
    There is no return statement: the call evaluates to None. *)
Definition _set_optimizer (lr_decay : pval F)
    : Action (state F) (option (Optimizer F)) :=
  m ← gets (fun s => model (self s));
  _ ← lift (parameters m);
  p ← gets (fun s => params (self s));
  lr ← lift (subscript p (LR C));
  rate ← lift (py_mul lr lr_decay);
  _ ← modify (with_self (set_optimizer (Some {| opt_lr := rate |})));
  mret None.

(** self.optimizer.zero_grad() and self.optimizer.step() *)
Definition optimizer_method (name : string) (e : Optimizer F -> event F)
    : Action (state F) unit :=
  o ← gets (fun s => optimizer (self s));
  match o with
  | None => raise (AttributeError TNone name)
  | Some opt => emit (e opt)
  end.

(** map(_var, review_seqs): the iterable is checked, the conversions are
    left to whoever consumes the map object. *)
Definition map_var (review_seqs : reviews) : result reviews :=
  match review_seqs with
  | NoReviews => Err (NotIterable TNone)
  | _ => Ok (MapVar review_seqs)
  end.

(** outputs, _, _ = self.model(quesion_seqs, review_seqs, answer_seqs, tf):
    the call is recorded, and the model answers from what it has seen. *)
Definition call_model (a : model_args) : Action (state F) (@outputs_t F) :=
  m ← gets (fun s => model (self s));
  match m with
  | PyObj o =>
      match obj_call o with
      | Some forward =>
          history ← gets (fun s => events (world s));
          _ ← emit (ModelCalled a);
          lift (forward history a)
      | None => raise (NotCallable TObject)
      end
  | _ => raise (NotCallable (pyobj_type m))
  end.

(** loss.backward() *)
Definition backward (loss : @loss_value F) : Action (state F) unit :=
  match loss with
  | LossZero => raise (AttributeError TInt "backward")
  | LossVar x => emit (Backward x)
  end.

(** loss.data[0] *)
Definition data_0 (loss : @loss_value F) : result F :=
  match loss with
  | LossZero => Err (AttributeError TInt "data")
  | LossVar x => Ok x
  end.

(** def train_batch(self, quesion_seqs, review_seqs, answer_seqs, answer_lengths):
      self.optimizer.zero_grad()
      answer_seqs = _var(answer_seqs)
      quesion_seqs = None if self.model == C.LM_ANSWERS else _var(quesion_seqs)
      review_seqs = map(_var, review_seqs) if self.model == C.LM_QUESTION_ANSWERS_REVIEWS else None
      target_seqs = _var(answer_seqs)
      teacher_forcing = np.random.random() < self.params[C.TEACHER_FORCING_RATIO]
      outputs, _, _ = self.model(quesion_seqs, review_seqs, answer_seqs, teacher_forcing)
      loss = _batch_loss(self.criterion, outputs, answer_lengths, target_seqs)
      loss.backward()
      self.optimizer.step()
      return loss.data[0] *)
Definition train_batch (quesion_seqs : tensor_arg) (review_seqs : reviews)
    (answer_seqs : tensor_arg) (answer_lengths : list Z) : Action (state F) F :=
  _ ← optimizer_method "zero_grad" (fun _ => ZeroGrad);
  answer_seqs ← lift (_var answer_seqs);
  m ← gets (fun s => model (self s));
  quesion_seqs ←
    (if py_eq m (LM_ANSWERS C) then mret None
     else q ← lift (_var quesion_seqs); mret (Some q));
  review_seqs ←
    (if py_eq m (LM_QUESTION_ANSWERS_REVIEWS C) then lift (map_var review_seqs)
     else mret NoReviews);
  target_seqs ← lift (_var (OfVariable answer_seqs));
  draw ← np_random;
  p ← gets (fun s => params (self s));
  ratio ← lift (subscript p (TEACHER_FORCING_RATIO C));
  teacher_forcing ← lift (py_float_lt draw ratio);
  outputs ← call_model {| m_question := quesion_seqs; m_review := review_seqs;
                          m_answer := answer_seqs;
                          m_teacher_forcing := teacher_forcing |};
  crit ← gets (fun s => criterion (self s));
  loss ← lift (_batch_loss crit outputs answer_lengths (t_data target_seqs));
  _ ← backward loss;
  _ ← optimizer_method "step" (fun opt => Step (opt_lr opt));
  lift (data_0 loss).

(** The locals quesion_seqs and review_seqs of train and of eval: bound
    by a branch of the dispatch, unbound ([None]) until then, and kept
    from one iteration to the next. *)
Record frame := {
  quesion_local : option tensor_arg;
  review_local : option reviews
}.

Definition unbound : frame := {| quesion_local := None; review_local := None |}.

(** Reading a local variable. *)
Definition read_local {A} (name : string) (v : option A) : result A :=
  match v with
  | Some a => Ok a
  | None => Err (UnboundLocalError name)
  end.

(** The dispatch on the variant, the same lines in train and in eval:
      if self.model == C.LM_ANSWERS:
          answer_seqs, answer_lengths = inputs
      elif self.model == C.LM_QUESTION_ANSWERS:
          (answer_seqs, answer_lengths), quesion_seqs = inputs
      elif self.model == C.LM_QUESTION_ANSWERS:
          (answer_seqs, answer_lengths), quesion_seqs, review_seqs = inputs
      else:
          raise 'Unimplemented model: %s' % self.model
    A batch is unpacked in the shape of its branch; a batch of another
    shape is not followed further and gives ShapeError. *)
Definition dispatch (m : pyobj F) (inp : inputs) (fr : frame)
    : result (seqs * list Z * frame) :=
  if py_eq m (LM_ANSWERS C) then
    match inp with
    | BatchA answer_seqs answer_lengths => Ok (answer_seqs, answer_lengths, fr)
    | _ => Err ShapeError
    end
  else if py_eq m (LM_QUESTION_ANSWERS C) then
    match inp with
    | BatchQA answer_seqs answer_lengths quesion_seqs =>
        Ok (answer_seqs, answer_lengths,
            {| quesion_local := Some (OfSeqs quesion_seqs);
               review_local := review_local fr |})
    | _ => Err ShapeError
    end
  else if py_eq m (LM_QUESTION_ANSWERS C) then
    match inp with
    | BatchQAR answer_seqs answer_lengths quesion_seqs review_seqs =>
        Ok (answer_seqs, answer_lengths,
            {| quesion_local := Some (OfSeqs quesion_seqs);
               review_local := Some (Reviews review_seqs) |})
    | _ => Err ShapeError
    end
  else Err RaiseNonException.

(** if batch_itr % self.print_every == 0: ... *)
Definition every (k n : Z) (body : Action (state F) unit) : Action (state F) unit :=
  if n =? 0 then raise ZeroDivisionError
  else if k mod n =? 0 then body
  else mret tt.

(** What the batch loop of train does with the loss of a batch:
      self.loss.append(loss)
      self.perplexity.append(_perplexity_from_loss(loss))
      if batch_itr % self.print_every == 0:
          print('Loss at batch %d = %.2f', (batch_itr, self.loss[-1]))
          print('Perplexity at batch %d = %.2f', (batch_itr, self.perplexity[-1])) *)
Definition record_loss (batch_itr : Z) (loss : F) : Action (state F) unit :=
  _ ← modify (with_self (append_loss loss));
  _ ← modify (with_self (append_perplexity (_perplexity_from_loss loss)));
  n ← gets (fun s => print_every (self s));
  every batch_itr n
    (_ ← print "Loss at batch %d = %.2f" [AInt batch_itr; AFloat loss];
     print "Perplexity at batch %d = %.2f"
       [AInt batch_itr; AFloat (_perplexity_from_loss loss)]).

(** The body of the batch loop of train:
      <dispatch>
      loss = self.train_batch(quesion_seqs, review_seqs, answer_seqs, answer_lengths)
      <the loss is recorded> *)
Definition train_step (item : Z * inputs) (fr : frame) : Action (state F) frame :=
  let '(batch_itr, inp) := item in
  m ← gets (fun s => model (self s));
  '(answer_seqs, answer_lengths, fr) ← lift (dispatch m inp fr);
  quesion_seqs ← lift (read_local "quesion_seqs" (quesion_local fr));
  review_seqs ← lift (read_local "review_seqs" (review_local fr));
  loss ← train_batch quesion_seqs review_seqs (OfSeqs answer_seqs) answer_lengths;
  _ ← record_loss batch_itr loss;
  mret fr.

(** if epoch == self.params[C.DECAY_START_EPOCH]:
        self.optimizer = self._set_optimizer(lr_decay=self.params[C.LR_DECAY]) *)
Definition decay_branch (epoch : Z) : Action (state F) unit :=
  p ← gets (fun s => params (self s));
  start ← lift (subscript p (DECAY_START_EPOCH C));
  if py_int_eq epoch start then
    lr_decay ← lift (subscript p (LR_DECAY C));
    returned ← _set_optimizer lr_decay;
    modify (with_self (set_optimizer returned))
  else mret tt.

(** range(v) *)
Definition py_range (v : pval F) : result (list Z) :=
  match v with
  | PInt n => Ok (range n)
  | _ => Err (NotAnInteger (pval_type v))
  end.

(** The body of the epoch loop of train:
      print('Epoch: %d', epoch)
      for batch_itr, inputs in tqdm(enumerate(self.dataloader)): ...
      if epoch % self.save_model_every == 0:
          self.save_model()
      <decay branch> *)
Definition train_epoch (epoch : Z) (fr : frame) : Action (state F) frame :=
  _ ← print "Epoch: %d" [AInt epoch];
  batches ← gets (fun s => dataloader (self s));
  fr ← for_each train_step (enumerate batches) fr;
  n ← gets (fun s => save_model_every (self s));
  _ ← every epoch n save_model;
  _ ← decay_branch epoch;
  mret fr.

(** def train(self):
      self._set_optimizer()
      for epoch in tqdm(range(self.params[C.EPOCHS])): ... *)
Definition train : Action (state F) unit :=
  _ ← _set_optimizer (PFloat (f_of_Z 1));
  p ← gets (fun s => params (self s));
  epochs ← lift (subscript p (EPOCHS C));
  epochs ← lift (py_range epochs);
  _ ← for_each train_epoch epochs unbound;
  mret tt.

(** dev_loss[-1] *)
Definition last_of (loss : @loss_value F) : result F :=
  match loss with
  | LossZero => Err (NotSubscriptable TInt)
  | LossVar x => Ok x
  end.

(** The body of the batch loop of eval, with its locals dev_losses and
    dev_perplexities:
      <dispatch>
      answer_seqs = _var(answer_seqs)
      quesion_seqs = None if self.model == C.LM_ANSWERS else _var(quesion_seqs)
      review_seqs = map(_var, review_seqs) if self.model == C.LM_QUESTION_ANSWERS_REVIEWS else None
      target_seqs = _var(answer_seqs)
      outputs, _, _ = self.model(quesion_seqs, review_seqs, answer_seqs, False)
      dev_loss = _batch_loss(self.criterion, outputs, answer_lengths, target_seqs)
      dev_losses.append(dev_loss.data[0])
      dev_perplexities.append(_perplexity_from_loss(dev_loss.data[0]))
      if batch_itr % self.print_every == 0:
          print('[Dev] Loss at batch %d = %.2f', (batch_itr, dev_loss[-1]))
          print('[Dev] Perplexity at batch %d = %.2f', (batch_itr, dev_perplexities[-1])) *)
Definition eval_step (item : Z * inputs) (acc : frame * list F * list F)
    : Action (state F) (frame * list F * list F) :=
  let '(batch_itr, inp) := item in
  let '(fr, dev_losses, dev_perplexities) := acc in
  m ← gets (fun s => model (self s));
  '(answer_seqs, answer_lengths, fr) ← lift (dispatch m inp fr);
  answer_seqs ← lift (_var (OfSeqs answer_seqs));
  quesion_seqs ←
    (if py_eq m (LM_ANSWERS C) then mret None
     else q ← lift (read_local "quesion_seqs" (quesion_local fr));
          q ← lift (_var q); mret (Some q));
  let fr := {| quesion_local :=
                 Some (match quesion_seqs with
                       | Some q => OfVariable q
                       | None => OfNone
                       end);
               review_local := review_local fr |} in
  review_seqs ←
    (if py_eq m (LM_QUESTION_ANSWERS_REVIEWS C)
     then r ← lift (read_local "review_seqs" (review_local fr)); lift (map_var r)
     else mret NoReviews);
  let fr := {| quesion_local := quesion_local fr;
               review_local := Some review_seqs |} in
  target_seqs ← lift (_var (OfVariable answer_seqs));
  outputs ← call_model {| m_question := quesion_seqs; m_review := review_seqs;
                          m_answer := answer_seqs;
                          m_teacher_forcing := false |};
  crit ← gets (fun s => criterion (self s));
  dev_loss ← lift (_batch_loss crit outputs answer_lengths (t_data target_seqs));
  x ← lift (data_0 dev_loss);
  let dev_losses := (dev_losses ++ [x])%list in
  x ← lift (data_0 dev_loss);
  let dev_perplexities := (dev_perplexities ++ [_perplexity_from_loss x])%list in
  n ← gets (fun s => print_every (self s));
  _ ← every batch_itr n
        (shown ← lift (last_of dev_loss);
         _ ← print "[Dev] Loss at batch %d = %.2f" [AInt batch_itr; AFloat shown];
         print "[Dev] Perplexity at batch %d = %.2f"
           [AInt batch_itr; AFloat (_perplexity_from_loss x)]);
  mret (fr, dev_losses, dev_perplexities).

(** dev_losses, dev_perplexities = [], []
    for batch_itr, inputs in tqdm(enumerate(self.dataloader)): ... *)
Definition eval_loop : Action (state F) (list F * list F) :=
  batches ← gets (fun s => dataloader (self s));
  '(_, dev_losses, dev_perplexities) ←
    for_each eval_step (enumerate batches) (unbound, [], []);
  mret (dev_losses, dev_perplexities).

(** def eval(self):
      <loop>
      _print_info(1, dev_losses, dev_perplexities, 'Development')
      return *)
Definition eval : Action (state F) unit :=
  '(dev_losses, dev_perplexities) ← eval_loop;
  _print_info 1 dev_losses dev_perplexities "Development".

(** m.cuda() *)
Definition cuda (m : pyobj F) : result (pyobj F) :=
  match m with
  | PyObj o =>
      if obj_cuda o then Ok m else Err (AttributeError TObject "cuda")
  | _ => Err (AttributeError (pyobj_type m) "cuda")
  end.

(** def __init__(self, dataloader, params, random_seed=1, save_model_every=1,
                 print_every=100, dev_loader=None, vocab=None):
    the assignments to the fields in order; a later [let] of the same name
    is the later assignment to the same field. *)
Definition __init__ (dataloader_arg : list inputs)
    (params_arg : gmap string (pval F))
    (random_seed save_model_every_arg print_every_arg : Z)
    (dev_loader : option (list inputs)) (vocab_arg : option (list string))
    : Action (World F) (Trainer F) :=
  _ ← _set_random_seeds random_seed;
  let self_save_model_every := save_model_every_arg in
  let self_print_every := print_every_arg in
  let self_params := Some params_arg in
  let self_dataloader := dataloader_arg in
  let self_vocab := vocab_arg in
  vocab_size ← lift (subscript (Some params_arg) (VOCAB_SIZE C));
  hdim ← lift (subscript (Some params_arg) (HDIM C));
  output_max_len ← lift (subscript (Some params_arg) (OUTPUT_MAX_LEN C));
  h_layers ← lift (subscript (Some params_arg) (H_LAYERS C));
  dropout ← lift (subscript (Some params_arg) (DROPOUT C));
  lm ← lift (LM env vocab_size hdim output_max_len h_layers dropout);
  let self_model := PyObj lm in
  self_model ← (if USE_CUDA env then lift (cuda self_model) else mret self_model);
  let self_loss := [] in
  let self_perplexity := [] in
  let self_criterion := NLLLoss env in
  let self_model := PyNone in
  let self_optimizer := None in
  let self_params := None in
  let self_vocabs := None in
  mret {| save_model_every := self_save_model_every;
          print_every := self_print_every;
          params := self_params;
          dataloader := self_dataloader;
          vocab := self_vocab;
          model := self_model;
          loss := self_loss;
          perplexity := self_perplexity;
          criterion := self_criterion;
          optimizer := self_optimizer;
          vocabs := self_vocabs |}.

End Methods.

(** ** A concrete environment

    Rationals stand for floats where float arithmetic is exact: sums,
    products and quotients of small dyadic numbers, and powers of two with
    an integral exponent. *)

Module Example.

Definition Q_power (b e : Q) : Q :=
  Qred (Qpower b (Qnum e / Zpos (Qden e))).

Definition Q_mean (xs : list Q) : Q :=
  Qred (fold_right Qplus 0%Q xs / inject_Z (Z.of_nat (length xs))).

Definition Q_str (x : Q) : string :=
  pretty (Qnum x) ++ "/" ++ pretty (Zpos (Qden x)).

#[global] Instance Q_float : FloatOps Q := {|
  f_of_Z := inject_Z;
  f_add := fun a b => Qred (a + b);
  f_mul := fun a b => Qred (a * b);
  f_divn := fun a n => Qred (a / inject_Z (Z.of_nat n));
  f_ltb := fun a b => negb (Qle_bool b a);
  f_eqb := Qeq_bool
|}.

#[global] Instance Q_numpy : NumpyOps Q := {|
  np_power := Q_power;
  np_mean := Q_mean;
  f_str := Q_str
|}.

(** The mean over the rows of minus the score of the target token. *)
Fixpoint nll_sum (rows : list (list Q)) (tgt : list Z) : result Q :=
  match rows, tgt with
  | [], [] => Ok 0%Q
  | r :: rows', t :: tgt' =>
      match r !! Z.to_nat t with
      | Some x => s ← nll_sum rows' tgt'; Ok (Qred (s - x))
      | None => Err (External "target out of range")
      end
  | _, _ => Err (External "size mismatch")
  end.

Definition nll : Criterion := fun rows tgt =>
  s ← nll_sum rows tgt;
  Ok (Qred (s / inject_Z (Z.of_nat (length rows)))).

Definition C0 : constants := {|
  VOCAB_SIZE := "vocab_size"; HDIM := "hdim"; OUTPUT_MAX_LEN := "output_max_len";
  H_LAYERS := "h_layers"; DROPOUT := "dropout";
  TEACHER_FORCING_RATIO := "teacher_forcing_ratio"; EPOCHS := "epochs";
  DECAY_START_EPOCH := "decay_start_epoch"; LR_DECAY := "lr_decay"; LR := "lr";
  MODEL_NAME := "model_name";
  LM_ANSWERS := "LM_ANSWERS"; LM_QUESTION_ANSWERS := "LM_QUESTION_ANSWERS";
  LM_QUESTION_ANSWERS_REVIEWS := "LM_QUESTION_ANSWERS_REVIEWS";
  BASE_PATH := "saved_models"; SAVED_MODEL_FILENAME := "model.bin";
  SAVED_PARAMS_FILENAME := "params.json"; SAVED_VOCAB_FILENAME := "vocab.pkl"
|}.

(** Scores over a vocabulary of two tokens: token 0 has score -1. *)
Definition scores : list Q := [(-1)%Q; (-2)%Q].

(** A model that answers [steps] timesteps for as many examples as it is
    given answers, and compares equal to the variant tag [tag]. *)
Definition net (tag : string) (steps : nat) : object Q := {|
  obj_eq := String.eqb tag;
  obj_call := Some (fun _ a =>
    Ok (replicate steps (map (fun _ => scores) (t_data (m_answer a)))));
  obj_parameters := true;
  obj_state_dict := Some "weights";
  obj_cuda := true
|}.

(** torch.LongTensor on rectangular data and on a Variable. *)
Definition rectangular (s : seqs) : bool :=
  match s with
  | [] => true
  | r :: rest => forallb (fun r' => Nat.eqb (length r') (length r)) rest
  end.

Definition long_tensor (a : tensor_arg) : result seqs :=
  match a with
  | OfSeqs s => if rectangular s then Ok s else Err (External "ragged")
  | OfVariable v => Ok (t_data v)
  | OfNone => Err (External "LongTensor(None)")
  end.

Definition env0 : Env Q := {|
  env_constants := C0;
  USE_CUDA := false;
  LongTensor := long_tensor;
  LM := fun _ _ _ _ _ => Ok (net "" 2);
  NLLLoss := nll;
  json_dump := fun _ => "{}"
|}.

Definition params0 : gmap string (pval Q) :=
  list_to_map
    [("vocab_size", PInt 2); ("hdim", PInt 4); ("output_max_len", PInt 2);
     ("h_layers", PInt 1); ("dropout", PFloat 0%Q);
     ("teacher_forcing_ratio", PFloat (1 # 2)); ("epochs", PInt 2);
     ("decay_start_epoch", PInt 0); ("lr_decay", PFloat (1 # 2));
     ("lr", PFloat (1 # 2)); ("model_name", PStr "lm")].

Definition world0 : World Q := {|
  events := [];
  dirs := ∅;
  files := ∅;
  now := {| year := 2018; month := 4; day := 9; hour := 17; minute := 5; second := 0 |};
  randoms := fun _ => (1 # 4)%Q;
  drawn := 0;
  refused := fun _ => false
|}.

(** A trainer as a caller has to set it up for a run. *)
Definition trainer0 (m : pyobj Q) (batches : list inputs) : Trainer Q := {|
  save_model_every := 1;
  print_every := 100;
  params := Some params0;
  dataloader := batches;
  vocab := None;
  model := m;
  loss := [];
  perplexity := [];
  criterion := nll;
  optimizer := None;
  vocabs := None
|}.

Definition answers2 : seqs := [[0; 0]; [0; 0]].

(** trainer.model = m and trainer.params = params0, assigned by the
    caller on a trainer that was constructed. *)
Definition configured (m : pyobj Q) (t : Trainer Q) : Trainer Q := {|
  save_model_every := save_model_every t;
  print_every := print_every t;
  params := Some params0;
  dataloader := dataloader t;
  vocab := vocab t;
  model := m;
  loss := loss t;
  perplexity := perplexity t;
  criterion := criterion t;
  optimizer := optimizer t;
  vocabs := vocabs t
|}.

(** The calls of the model among the events. *)
Definition model_calls (evs : list (event Q)) : list model_args :=
  omap (fun e => match e with ModelCalled a => Some a | _ => None end) evs.

End Example.

(** * Properties *)

(** ** The masked loss *)

Section LossFacts.
Context {F : Type} `{FloatOps F}.
Implicit Types (criterion : @Criterion F) (outputs : @outputs_t F).

Lemma index_drop {A} (xs : list A) (i : nat) (x : A) :
  xs !! i = Some x -> drop i xs = x :: drop (S i) xs.
Proof.
  revert i. induction xs as [|y ys IH]; intros [|i] Hx; simplify_eq/=; eauto.
Qed.

(** The loop of the code over the indices t, t+1, ..., t+n-1, all within
    the outputs, is the reference's walk over those n entries. *)
Lemma loss_loop_steps criterion outputs targets n : forall t l sum,
  (t + n <= length outputs)%nat ->
  (st ← loss_loop criterion outputs targets (seq t n) (l, sum); Ok (snd st))
  = masked_nll_steps criterion targets t (take n (drop t outputs)) l sum.
Proof.
  induction n as [|n IH]; intros t l sum Hlen; [reflexivity|].
  destruct (lookup_lt_is_Some_2 outputs t) as [out Hout]; [lia|].
  rewrite (index_drop _ _ _ Hout). cbn [seq take loss_loop masked_nll_steps].
  unfold loss_step, index. rewrite Hout. cbn.
  destruct (select (active l) out) as [rows|e]; [cbn|reflexivity].
  destruct (column targets t) as [col|e]; [cbn|reflexivity].
  destruct (select (active l) col) as [tgt|e]; [cbn|reflexivity].
  destruct (criterion rows tgt) as [c|e]; [cbn|reflexivity].
  apply (IH (S t)). lia.
Qed.

(** X1.  What the code computes when there are at least as many output
    timesteps as examples: the masked sum over the first len(target_lengths)
    timesteps only, divided by the number of all output timesteps. *)
Lemma batch_loss_prefix criterion outputs target_lengths targets :
  (length target_lengths <= length outputs)%nat ->
  _batch_loss criterion outputs target_lengths targets
  = (sum ← masked_nll_steps criterion targets 0
             (take (length target_lengths) outputs) target_lengths LossZero;
     loss_div sum (length outputs)).
Proof.
  intros Hlen. unfold _batch_loss.
  rewrite <- (loss_loop_steps criterion outputs targets _ 0%nat) by (simpl; lia).
  destruct (loss_loop _ _ _ _ _) as [[l' sum]|e]; reflexivity.
Qed.

(** The code and the reference agree on the batches that have exactly as
    many examples as output timesteps. *)
Lemma batch_loss_square criterion outputs target_lengths targets :
  length target_lengths = length outputs ->
  _batch_loss criterion outputs target_lengths targets
  = masked_nll_reference criterion outputs target_lengths targets.
Proof.
  intros Hlen. unfold _batch_loss, masked_nll_reference.
  pose proof (loss_loop_steps criterion outputs targets (length outputs) 0%nat
                target_lengths LossZero) as Hsteps.
  change (drop 0 outputs) with outputs in Hsteps.
  rewrite firstn_all in Hsteps.
  rewrite <- Hsteps, Hlen by (simpl; lia).
  destruct (loss_loop _ _ _ _ _) as [[l' sum]|e]; reflexivity.
Qed.

Lemma loss_loop_overrun criterion outputs targets idxs : forall st,
  Exists (fun i => (length outputs <= i)%nat) idxs ->
  exists e, loss_loop criterion outputs targets idxs st = Err e.
Proof.
  induction idxs as [|i idxs IH]; intros [l sum] Hex; [inversion Hex|].
  cbn [loss_loop].
  destruct (loss_step criterion outputs targets i (l, sum)) as [st'|e] eqn:Hstep;
    [|eexists; reflexivity].
  cbn. inversion Hex as [? ? Hi|? ? Hrest]; subst; [|eauto].
  unfold loss_step, index in Hstep.
  rewrite (lookup_ge_None_2 outputs i) in Hstep by lia. discriminate.
Qed.

(** X2.  With more examples than output timesteps the code reads past the
    end of the outputs and raises, whatever the criterion and the lengths. *)
Lemma batch_loss_overrun criterion outputs target_lengths targets :
  (length outputs < length target_lengths)%nat ->
  exists e, _batch_loss criterion outputs target_lengths targets = Err e.
Proof.
  intros Hlen. unfold _batch_loss.
  destruct (loss_loop_overrun criterion outputs targets
              (seq 0 (length target_lengths)) (target_lengths, LossZero)) as [e He].
  - apply Exists_exists. exists (length outputs). split; [|lia].
    apply elem_of_seq. lia.
  - exists e. rewrite He. reflexivity.
Qed.

End LossFacts.

(** ** Reasoning about statements *)

Section Statements.
Context {S : Type}.

(** A property of the state that a statement keeps, whether it returns
    or raises. *)
Definition preserves {A} (P : S -> Prop) (m : Action S A) : Prop :=
  forall s, P s -> P (snd (m s)).

Lemma preserves_ret {A} P (a : A) : preserves P (mret a).
Proof. intros s Hs. exact Hs. Qed.

Lemma preserves_raise {A} P e : preserves P (@raise S A e).
Proof. intros s Hs. exact Hs. Qed.

Lemma preserves_lift {A} P (r : result A) : preserves P (lift r).
Proof. intros s Hs. exact Hs. Qed.

Lemma preserves_gets {A} P (f : S -> A) : preserves P (gets f).
Proof. intros s Hs. exact Hs. Qed.

Lemma preserves_modify P (g : S -> S) :
  (forall s, P s -> P (g s)) -> preserves P (modify g).
Proof. intros Hg s Hs. apply Hg, Hs. Qed.

Lemma preserves_bind {A B} P (m : Action S A) (f : A -> Action S B) :
  preserves P m -> (forall a, preserves P (f a)) -> preserves P (m ≫= f).
Proof.
  intros Hm Hf s Hs. unfold mbind, action_bind.
  specialize (Hm s Hs). destruct (m s) as [[a|e] s1]; [|exact Hm].
  apply Hf, Hm.
Qed.

Lemma preserves_for_each {X L} P (body : X -> L -> Action S L) xs :
  (forall x acc, preserves P (body x acc)) ->
  forall acc, preserves P (for_each body xs acc).
Proof.
  intros Hbody. induction xs as [|x xs IH]; intros acc; cbn [for_each].
  - apply preserves_ret.
  - apply preserves_bind; auto.
Qed.

(** A statement that returns went through each of its parts. *)
Lemma bind_Ok {A B} (m : Action S A) (f : A -> Action S B) s b s' :
  (m ≫= f) s = (Ok b, s') ->
  exists a s1, m s = (Ok a, s1) /\ f a s1 = (Ok b, s').
Proof.
  unfold mbind, action_bind. destruct (m s) as [[a|e] s1]; [eauto|discriminate].
Qed.

Lemma bind_Err {A B} (m : Action S A) (f : A -> Action S B) s e s1 :
  m s = (Err e, s1) -> (m ≫= f) s = (Err e, s1).
Proof. unfold mbind, action_bind. intros ->. reflexivity. Qed.

Lemma bind_step {A B} (m : Action S A) (f : A -> Action S B) s a s1 :
  m s = (Ok a, s1) -> (m ≫= f) s = f a s1.
Proof. unfold mbind, action_bind. intros ->. reflexivity. Qed.

Lemma bind_gets {A B} (f : S -> A) (k : A -> Action S B) s :
  (gets f ≫= k) s = k (f s) s.
Proof. reflexivity. Qed.

Lemma bind_modify {B} (g : S -> S) (k : unit -> Action S B) s :
  (modify g ≫= k) s = k tt (g s).
Proof. reflexivity. Qed.

Lemma bind_lift_Ok {A B} (a : A) (k : A -> Action S B) s :
  (lift (Ok a) ≫= k) s = k a s.
Proof. reflexivity. Qed.

Lemma bind_lift_Err {A B} e (k : A -> Action S B) s :
  (lift (Err e) ≫= k) s = (Err e, s).
Proof. reflexivity. Qed.

Lemma preserves_ret_bind {A B} P (a : A) (k : A -> Action S B) :
  preserves P (k a) -> preserves P (mret a ≫= k).
Proof. intros Hk s Hs. exact (Hk s Hs). Qed.

(** Reading a part of the state that the property pins down. *)
Lemma preserves_gets_known {A B} P (f : S -> A) (a : A) (k : A -> Action S B) :
  (forall s, P s -> f s = a) -> preserves P (k a) -> preserves P (gets f ≫= k).
Proof. intros Hf Hk s Hs. rewrite bind_gets, (Hf s Hs). apply Hk, Hs. Qed.

(** A loop whose every returning iteration counts one up has counted its
    items when it returns. *)
Lemma for_each_count {X L} (count : L -> nat) (body : X -> L -> Action S L) xs :
  (forall x acc s acc' s',
      body x acc s = (Ok acc', s') -> count acc' = Datatypes.S (count acc)) ->
  forall acc s acc' s',
    for_each body xs acc s = (Ok acc', s') ->
    count acc' = (count acc + length xs)%nat.
Proof.
  intros Hbody. induction xs as [|x xs IH]; intros acc s acc' s' Hrun.
  - cbn in Hrun. injection Hrun as -> _. cbn. lia.
  - cbn [for_each] in Hrun. apply bind_Ok in Hrun as (acc1 & s1 & Hx & Hrest).
    apply IH in Hrest. apply Hbody in Hx. cbn [length]. lia.
Qed.

(** The loop-carried locals keep what every iteration that returns keeps. *)
Lemma for_each_locals {X L} (I : L -> Prop) (body : X -> L -> Action S L) xs :
  (forall x acc s acc' s', I acc -> body x acc s = (Ok acc', s') -> I acc') ->
  forall acc s acc' s',
    I acc -> for_each body xs acc s = (Ok acc', s') -> I acc'.
Proof.
  intros Hbody. induction xs as [|x xs IH]; intros acc s acc' s' Hacc Hrun.
  - cbn in Hrun. injection Hrun as -> _. exact Hacc.
  - cbn [for_each] in Hrun. apply bind_Ok in Hrun as (acc1 & s1 & Hx & Hrest).
    eapply IH; [|exact Hrest]. eapply Hbody; eauto.
Qed.

End Statements.

(** Splits a statement into its parts, leaving the parts that change the
    state in the way the property cares about. *)
Ltac preserve :=
  repeat first
    [ apply preserves_ret | apply preserves_raise | apply preserves_lift
    | apply preserves_gets
    | apply preserves_bind; [|intros ?]
    | apply preserves_for_each; intros ? ?
    | match goal with
      | |- preserves _ (match ?x with _ => _ end) => destruct x
      end ].

(** ** Making directories *)

Section FileSystemFacts.
Context {F : Type}.

(** From [w] to [w1] nothing changed but the directories, and none of
    those was removed. *)
Definition only_more_dirs (w w1 : World F) : Prop :=
  events w1 = events w /\ files w1 = files w /\ now w1 = now w /\
  randoms w1 = randoms w /\ drawn w1 = drawn w /\ refused w1 = refused w /\
  dirs w ⊆ dirs w1.

Lemma only_more_dirs_refl w : only_more_dirs w w.
Proof. unfold only_more_dirs. repeat split; set_solver. Qed.

Lemma only_more_dirs_trans w w1 w2 :
  only_more_dirs w w1 -> only_more_dirs w1 w2 -> only_more_dirs w w2.
Proof.
  intros (? & ? & ? & ? & ? & ? & ?) (? & ? & ? & ? & ? & ? & ?).
  repeat split; try congruence. set_solver.
Qed.

Lemma add_dir_only_more_dirs name w : only_more_dirs w (add_dir name w).
Proof. unfold only_more_dirs. repeat split. cbn. set_solver. Qed.

Lemma mkdir_only_more_dirs name head w :
  only_more_dirs w (snd (mkdir name head w)).
Proof.
  unfold mkdir.
  repeat match goal with
         | |- context [match ?x with _ => _ end] => destruct x
         end;
    first [apply only_more_dirs_refl | apply add_dir_only_more_dirs].
Qed.

Lemma makedirs_chain_only_more_dirs chain : forall w,
  only_more_dirs w (snd (@makedirs_chain F chain w)).
Proof.
  induction chain as [|name heads IH]; intros w; [apply only_more_dirs_refl|].
  cbn [makedirs_chain]. destruct heads as [|head rest];
    [apply mkdir_only_more_dirs|].
  destruct (path_exists head w); [apply mkdir_only_more_dirs|].
  specialize (IH w). destruct (makedirs_chain (head :: rest) w) as [[u|e] w1];
    [|exact IH].
  eapply only_more_dirs_trans; [exact IH|apply mkdir_only_more_dirs].
Qed.

Lemma makedirs_only_more_dirs path w :
  only_more_dirs w (snd (@makedirs F path w)).
Proof.
  unfold makedirs. destruct (String.eqb path "");
    [apply only_more_dirs_refl|apply makedirs_chain_only_more_dirs].
Qed.

Lemma mkdir_Ok name head (w : World F) u w1 :
  mkdir name head w = (Ok u, w1) -> name ∈ dirs w1.
Proof.
  unfold mkdir.
  repeat match goal with
         | |- context [match ?x with _ => _ end] => destruct x
         end;
    intros [= <-]; cbn; set_solver.
Qed.

Lemma makedirs_Ok path (w : World F) u w1 :
  makedirs path w = (Ok u, w1) -> path ∈ dirs w1.
Proof.
  unfold makedirs. destruct (String.eqb path ""); [discriminate|].
  cbn [makedirs_chain]. destruct (reverse (parents path)) as [|head rest];
    [apply mkdir_Ok|].
  destruct (path_exists head w); [apply mkdir_Ok|].
  destruct (makedirs_chain (head :: rest) w) as [[u1|e] w2];
    [apply mkdir_Ok|discriminate].
Qed.

Lemma ensure_path_self path (s : state F) :
  self (snd (_ensure_path path s)) = self s.
Proof.
  unfold _ensure_path. destruct (path_exists path (world s)); [reflexivity|].
  destruct (makedirs path (world s)); reflexivity.
Qed.

Lemma ensure_path_world path (s : state F) :
  only_more_dirs (world s) (world (snd (_ensure_path path s))).
Proof.
  unfold _ensure_path. destruct (path_exists path (world s));
    [apply only_more_dirs_refl|].
  pose proof (makedirs_only_more_dirs path (world s)) as Hmore.
  destruct (makedirs path (world s)); exact Hmore.
Qed.

Lemma ensure_path_Ok path (s : state F) u s1 :
  _ensure_path path s = (Ok u, s1) -> path_exists path (world s1) = true.
Proof.
  unfold _ensure_path. destruct (path_exists path (world s)) eqn:Hhere.
  - intros [= _ <-]. exact Hhere.
  - destruct (makedirs path (world s)) as [r w] eqn:Hmake.
    intros [= -> <-]. apply makedirs_Ok in Hmake.
    unfold path_exists. cbn. rewrite bool_decide_eq_true_2 by exact Hmake.
    reflexivity.
Qed.

End FileSystemFacts.

(** ** The trainer *)

Section TrainerFacts.
Context {F : Type} `{FloatOps F} `{NumpyOps F} (env : Env F).

Local Abbreviation C := (env_constants env).
Local Open Scope list_scope.

(** *** The loss history and the perplexity history *)


(** An iteration of eval that returns appended one loss and numpy's
    power of 2.0 at that loss. *)
Lemma eval_step_appends item fr ls ps s fr' ls' ps' s' :
  eval_step env item (fr, ls, ps) s = (Ok (fr', ls', ps'), s') ->
  exists x, ls' = ls ++ [x] /\ ps' = ps ++ [np_power (f_of_Z 2) x].
Proof.
  destruct item as [batch_itr inp]. unfold eval_step. intros Hrun.
  apply bind_Ok in Hrun as (m & s1 & _ & Hrun).
  apply bind_Ok in Hrun as ([[answer_seqs answer_lengths] fr1] & s2 & _ & Hrun).
  apply bind_Ok in Hrun as (answer_var & s3 & _ & Hrun).
  apply bind_Ok in Hrun as (quesion_seqs & s4 & _ & Hrun).
  apply bind_Ok in Hrun as (review_seqs & s5 & _ & Hrun).
  apply bind_Ok in Hrun as (target_seqs & s6 & _ & Hrun).
  apply bind_Ok in Hrun as (outputs & s7 & _ & Hrun).
  apply bind_Ok in Hrun as (crit & s8 & _ & Hrun).
  apply bind_Ok in Hrun as (dev_loss & s9 & _ & Hrun).
  apply bind_Ok in Hrun as (x & s10 & Hx & Hrun).
  apply bind_Ok in Hrun as (x' & s11 & Hx' & Hrun).
  apply bind_Ok in Hrun as (n & s12 & _ & Hrun).
  apply bind_Ok in Hrun as (u & s13 & _ & Hrun).
  unfold lift in Hx, Hx'. injection Hx as Hx _. injection Hx' as Hx' _.
  rewrite Hx in Hx'. injection Hx' as <-.
  injection Hrun as _ <- <- _. exists x. split; reflexivity.
Qed.


(** *** The dispatch on the variant *)

(** The variant a trainer is configured for, by the comparisons of the
    dispatch: none of the three, answers only, or questions, answers and
    reviews. *)
Definition unsupported (m : pyobj F) : Prop :=
  py_eq m (LM_ANSWERS C) = false /\
  py_eq m (LM_QUESTION_ANSWERS C) = false /\
  py_eq m (LM_QUESTION_ANSWERS_REVIEWS C) = false.

Definition answers_only (m : pyobj F) : Prop :=
  py_eq m (LM_ANSWERS C) = true /\
  py_eq m (LM_QUESTION_ANSWERS C) = false /\
  py_eq m (LM_QUESTION_ANSWERS_REVIEWS C) = false.

Definition question_answers_reviews (m : pyobj F) : Prop :=
  py_eq m (LM_ANSWERS C) = false /\
  py_eq m (LM_QUESTION_ANSWERS C) = false /\
  py_eq m (LM_QUESTION_ANSWERS_REVIEWS C) = true.

(** Only the first two tags have a branch: the third branch repeats the
    test of the second and is never entered. *)
Lemma dispatch_no_branch m inp fr :
  py_eq m (LM_ANSWERS C) = false ->
  py_eq m (LM_QUESTION_ANSWERS C) = false ->
  dispatch env m inp fr = Err RaiseNonException.
Proof. intros HA HQA. unfold dispatch. rewrite HA, HQA. reflexivity. Qed.

Lemma train_step_no_branch item fr s :
  py_eq (model (self s)) (LM_ANSWERS C) = false ->
  py_eq (model (self s)) (LM_QUESTION_ANSWERS C) = false ->
  train_step env item fr s = (Err RaiseNonException, s).
Proof.
  intros HA HQA. destruct item as [batch_itr inp].
  unfold train_step. rewrite bind_gets, dispatch_no_branch by assumption.
  apply bind_lift_Err.
Qed.

Lemma eval_step_no_branch item acc s :
  py_eq (model (self s)) (LM_ANSWERS C) = false ->
  py_eq (model (self s)) (LM_QUESTION_ANSWERS C) = false ->
  eval_step env item acc s = (Err RaiseNonException, s).
Proof.
  intros HA HQA. destruct item as [batch_itr inp]. destruct acc as [[fr ls] ps].
  unfold eval_step. rewrite bind_gets, dispatch_no_branch by assumption.
  apply bind_lift_Err.
Qed.

Lemma enumerate_cons {X} (x : X) xs :
  exists rest, enumerate (x :: xs) = (0, x) :: rest.
Proof. unfold enumerate. cbn. eauto. Qed.

(** With a batch to dispatch and no branch for the variant, eval raises at
    the first batch and leaves everything as it was. *)
Lemma eval_no_branch s b rest :
  py_eq (model (self s)) (LM_ANSWERS C) = false ->
  py_eq (model (self s)) (LM_QUESTION_ANSWERS C) = false ->
  dataloader (self s) = b :: rest ->
  eval env s = (Err RaiseNonException, s).
Proof.
  intros HA HQA Hdl. unfold eval, eval_loop.
  apply bind_Err. rewrite bind_gets, Hdl.
  destruct (enumerate_cons b rest) as [items ->].
  cbn [for_each]. apply bind_Err, bind_Err, eval_step_no_branch; assumption.
Qed.

(** What a call of _set_optimizer that returns has done: the rate is the
    configured one times the factor, and the call evaluates to None. *)
Lemma set_optimizer_Ok lr_decay s r s1 :
  _set_optimizer env lr_decay s = (Ok r, s1) ->
  exists lr rate,
    subscript (params (self s)) (LR C) = Ok lr /\
    py_mul lr lr_decay = Ok rate /\
    r = None /\
    s1 = with_self (set_optimizer (Some {| opt_lr := rate |})) s.
Proof.
  unfold _set_optimizer. intros Hrun.
  apply bind_Ok in Hrun as (m & s2 & Hm & Hrun). injection Hm as <- <-.
  apply bind_Ok in Hrun as (u & s3 & Hu & Hrun). injection Hu as _ <-.
  apply bind_Ok in Hrun as (p & s4 & Hp & Hrun). injection Hp as <- <-.
  apply bind_Ok in Hrun as (lr & s5 & Hlr & Hrun). injection Hlr as Hlr <-.
  apply bind_Ok in Hrun as (rate & s6 & Hrate & Hrun). injection Hrate as Hrate <-.
  apply bind_Ok in Hrun as (u' & s7 & Hset & Hrun). injection Hset as _ <-.
  injection Hrun as <- <-. eauto 10.
Qed.

(** Once the optimizer is set and the first epoch entered, train raises
    at the first batch when the variant has no branch: the epoch line is
    all that happened. *)
Lemma train_no_branch s b rest r s1 n :
  py_eq (model (self s)) (LM_ANSWERS C) = false ->
  py_eq (model (self s)) (LM_QUESTION_ANSWERS C) = false ->
  dataloader (self s) = b :: rest ->
  _set_optimizer env (PFloat (f_of_Z 1)) s = (Ok r, s1) ->
  subscript (params (self s)) (EPOCHS C) = Ok (PInt n) ->
  0 < n ->
  train env s
  = (Err RaiseNonException,
     with_world (add_event (Printed "Epoch: %d" [AInt 0])) s1).
Proof.
  intros HA HQA Hdl Hset Hepochs Hn. unfold train.
  rewrite (bind_step _ _ _ _ _ Hset).
  apply set_optimizer_Ok in Hset as (lr & rate & _ & _ & _ & ->).
  rewrite bind_gets. cbn [self with_self params set_optimizer].
  rewrite Hepochs, bind_lift_Ok. unfold py_range. rewrite bind_lift_Ok.
  apply bind_Err. unfold range.
  destruct (Z.to_nat n) as [|k] eqn:Hk; [lia|]. cbn [seq map for_each].
  apply bind_Err. unfold train_epoch, print, emit.
  rewrite bind_modify, bind_gets.
  cbn [self with_world with_self dataloader set_optimizer]. rewrite Hdl.
  apply bind_Err. destruct (enumerate_cons b rest) as [items ->].
  cbn [for_each]. apply bind_Err, train_step_no_branch; assumption.
Qed.

(** *** The decay of the learning rate *)

Lemma set_optimizer_Err lr_decay s e s1 :
  _set_optimizer env lr_decay s = (Err e, s1) -> s1 = s.
Proof.
  unfold _set_optimizer. rewrite bind_gets.
  destruct (parameters (model (self s))) as [u|e1];
    [rewrite bind_lift_Ok|rewrite bind_lift_Err; congruence].
  rewrite bind_gets.
  destruct (subscript (params (self s)) (LR C)) as [lr|e1];
    [rewrite bind_lift_Ok|rewrite bind_lift_Err; congruence].
  destruct (py_mul lr lr_decay) as [rate|e1];
    [rewrite bind_lift_Ok|rewrite bind_lift_Err; congruence].
  rewrite bind_modify. discriminate.
Qed.

(** When the branch is taken and _set_optimizer returns, the optimizer it
    has just installed is overwritten with the None the call evaluates
    to. *)
Lemma decay_branch_taken epoch s start lr_decay r s1 :
  subscript (params (self s)) (DECAY_START_EPOCH C) = Ok start ->
  py_int_eq epoch start = true ->
  subscript (params (self s)) (LR_DECAY C) = Ok lr_decay ->
  _set_optimizer env lr_decay s = (Ok r, s1) ->
  decay_branch env epoch s = (Ok tt, with_self (set_optimizer None) s1).
Proof.
  intros Hstart Heq Hdecay Hset. unfold decay_branch.
  rewrite bind_gets, Hstart, bind_lift_Ok, Heq, Hdecay, bind_lift_Ok.
  rewrite (bind_step _ _ _ _ _ Hset).
  apply set_optimizer_Ok in Hset as (lr & rate & _ & _ & -> & _). reflexivity.
Qed.

(** X16.  The branch never leaves a new optimizer behind: the trainer has none
    afterwards, or nothing has changed. *)
Lemma decay_branch_installs_nothing epoch s :
  optimizer (self (snd (decay_branch env epoch s))) = None \/
  snd (decay_branch env epoch s) = s.
Proof.
  unfold decay_branch. rewrite bind_gets.
  destruct (subscript (params (self s)) (DECAY_START_EPOCH C)) as [start|e];
    [rewrite bind_lift_Ok|right; reflexivity].
  destruct (py_int_eq epoch start); [|right; reflexivity].
  destruct (subscript (params (self s)) (LR_DECAY C)) as [lr_decay|e];
    [rewrite bind_lift_Ok|right; reflexivity].
  destruct (_set_optimizer env lr_decay s) as [[r|e] s1] eqn:Hset.
  - rewrite (bind_step _ _ _ _ _ Hset). left.
    apply set_optimizer_Ok in Hset as (lr & rate & _ & _ & -> & _). reflexivity.
  - rewrite (bind_Err _ _ _ _ _ Hset). right.
    apply set_optimizer_Err in Hset. exact Hset.
Qed.

(** *** Checkpoints *)

(** All of save_model: the name is read, the directory is ensured, and
    the third file name raises before anything is written. *)
Lemma save_model_run s :
  save_model env s
  = match subscript (params (self s)) (MODEL_NAME C) with
    | Err e => (Err e, s)
    | Ok name =>
        let save_dir :=
          (BASE_PATH C ++ "/" ++ py_str name ++ "/" ++ strftime (now (world s)))%string in
        match _ensure_path save_dir s with
        | (Ok _, s1) => (Err (UnsupportedOperand "&" TStr TTuple), s1)
        | (Err e, s1) => (Err e, s1)
        end
    end.
Proof.
  unfold save_model, _save_dir.
  unfold mbind, action_bind, mret, action_ret, gets, lift.
  destruct (subscript (params (self s)) (MODEL_NAME C)) as [name|e];
    [|reflexivity].
  cbv zeta. destruct (_ensure_path _ s) as [[u|e] s1]; reflexivity.
Qed.

Lemma save_model_raises s : exists e, fst (save_model env s) = Err e.
Proof.
  rewrite save_model_run.
  destruct (subscript _ _); cbn; [|eauto].
  destruct (_ensure_path _ s) as [[u|e] s1]; cbn; eauto.
Qed.

(** save_model changes no field of the trainer, and of the world only the
    directories. *)
Lemma save_model_frame s :
  self (snd (save_model env s)) = self s /\
  only_more_dirs (world s) (world (snd (save_model env s))).
Proof.
  rewrite save_model_run.
  destruct (subscript _ _) as [name|e]; cbn;
    [|split; [reflexivity|apply only_more_dirs_refl]].
  pose proof (ensure_path_self
                (BASE_PATH C +:+ "/" +:+ py_str name +:+ "/" +:+ strftime (now (world s)))
                s) as Hself.
  pose proof (ensure_path_world
                (BASE_PATH C +:+ "/" +:+ py_str name +:+ "/" +:+ strftime (now (world s)))
                s) as Hworld.
  destruct (_ensure_path _ s) as [[u|e] s1]; split; assumption.
Qed.

Lemma save_model_writes_nothing s :
  files (world (snd (save_model env s))) = files (world s).
Proof. apply (save_model_frame s). Qed.

(** *** The constructor *)

Lemma init_fields dl ps seed sme pe dev v w t w' :
  __init__ env dl ps seed sme pe dev v w = (Ok t, w') ->
  t = {| save_model_every := sme; print_every := pe; params := None;
         dataloader := dl; vocab := v; model := PyNone; loss := [];
         perplexity := []; criterion := NLLLoss env; optimizer := None;
         vocabs := None |}.
Proof.
  unfold __init__. intros Hrun.
  apply bind_Ok in Hrun as (u & w1 & _ & Hrun).
  apply bind_Ok in Hrun as (vocab_size & w2 & _ & Hrun).
  apply bind_Ok in Hrun as (hdim & w3 & _ & Hrun).
  apply bind_Ok in Hrun as (output_max_len & w4 & _ & Hrun).
  apply bind_Ok in Hrun as (h_layers & w5 & _ & Hrun).
  apply bind_Ok in Hrun as (dropout & w6 & _ & Hrun).
  apply bind_Ok in Hrun as (lm & w7 & _ & Hrun).
  apply bind_Ok in Hrun as (m & w8 & _ & Hrun).
  injection Hrun as <- _. reflexivity.
Qed.

(** The dev_loader argument is not used. *)
Lemma init_ignores_dev_loader dl ps seed sme pe dev dev' v :
  __init__ env dl ps seed sme pe dev v = __init__ env dl ps seed sme pe dev' v.
Proof. reflexivity. Qed.

(** *** What a method does to its collaborators *)

(** From [s0] to [s] the trainer and the file system are as they were and
    every event that was added satisfies [ok]. *)
Definition trace (ok : event F -> Prop) (s0 s : state F) : Prop :=
  self s = self s0 /\
  dirs (world s) = dirs (world s0) /\
  files (world s) = files (world s0) /\
  exists new, events (world s) = events (world s0) ++ new /\ Forall ok new.

Lemma trace_refl ok s : trace ok s s.
Proof.
  repeat split. exists []. rewrite app_nil_r. split; [reflexivity|constructor].
Qed.

Lemma trace_emit ok s0 e : ok e -> preserves (trace ok s0) (emit e).
Proof.
  intros He s (Hself & Hdirs & Hfiles & new & Hev & Hnew).
  repeat split; try assumption.
  exists (new ++ [e]). cbn. rewrite Hev, app_assoc. split; [reflexivity|].
  apply Forall_app. split; [exact Hnew|]. constructor; [exact He|constructor].
Qed.

Lemma trace_np_random ok s0 : preserves (trace ok s0) (@np_random F).
Proof. intros s Hs. exact Hs. Qed.

Lemma trace_model ok s0 s : trace ok s0 s -> model (self s) = model (self s0).
Proof. intros (-> & _). reflexivity. Qed.

Lemma trace_every ok s0 k n body :
  preserves (trace ok s0) body -> preserves (trace ok s0) (every k n body).
Proof. intros Hbody. unfold every. preserve. exact Hbody. Qed.

(** An event of a pass that only reads: a call of the model without
    teacher forcing, or a line on the console. *)
Definition read_only (e : event F) : Prop :=
  match e with
  | ModelCalled a => m_teacher_forcing a = false
  | Printed _ _ => True
  | _ => False
  end.

Lemma eval_step_read_only s0 item acc :
  preserves (trace read_only s0) (eval_step env item acc).
Proof.
  destruct item as [batch_itr inp]. destruct acc as [[fr ls] ps].
  unfold eval_step, call_model, print.
  preserve; try (apply trace_every; preserve);
    try (apply trace_emit; cbn; trivial).
Qed.

(** X17.  eval calls the model without teacher forcing and prints; it takes no
    optimizer step, computes no gradient, and changes neither a field of
    the trainer nor a file. *)
Lemma eval_read_only s : trace read_only s (snd (eval env s)).
Proof.
  assert (preserves (trace read_only s) (eval env)) as Hkeep.
  { unfold eval, eval_loop, _print_info, print.
    preserve; try apply eval_step_read_only;
      try (apply trace_emit; cbn; trivial). }
  apply Hkeep, trace_refl.
Qed.

Lemma enumerate_length {X} (xs : list X) : length (enumerate xs) = length xs.
Proof.
  unfold enumerate. rewrite length_zip, length_map, length_seq. lia.
Qed.

(** X18.  An eval that completes has recorded one loss per batch of
    self.dataloader. *)
Lemma eval_loop_length s ls ps s' :
  eval_loop env s = (Ok (ls, ps), s') -> length ls = length (dataloader (self s)).
Proof.
  unfold eval_loop. intros Hrun. rewrite bind_gets in Hrun.
  apply bind_Ok in Hrun as ([[fr ls1] ps1] & s2 & Hloop & Hrun).
  injection Hrun as <- <- _.
  apply (for_each_count (fun acc : frame * list F * list F => length (snd (fst acc))))
    in Hloop; [rewrite enumerate_length in Hloop; exact Hloop|].
  intros item [[fr0 ls0] ps0] t [[fr2 ls2] ps2] t' Hstep.
  apply eval_step_appends in Hstep as (x & -> & _). cbn.
  rewrite length_app. cbn. lia.
Qed.

(** X19.  An eval that completes ends on the two lines of _print_info, with
    the means of the recorded losses and perplexities. *)
Lemma eval_logs_means s s' :
  eval env s = (Ok tt, s') ->
  exists ls ps s1,
    eval_loop env s = (Ok (ls, ps), s1) /\
    events (world s') = events (world s1) ++
      [Printed "Epoch = %d, [%s] Loss = %.2f"
         [AInt 1; AStr "Development"; AFloat (np_mean ls)];
       Printed "Epoch = %d, [%s] Perplexity = %.2f"
         [AInt 1; AStr "Development"; AFloat (np_mean ps)]].
Proof.
  unfold eval. intros Hrun.
  apply bind_Ok in Hrun as ([ls ps] & s1 & Hloop & Hrun).
  exists ls, ps, s1. split; [exact Hloop|].
  unfold _print_info, print, emit in Hrun. rewrite bind_modify in Hrun.
  injection Hrun as <-. cbn. rewrite <- app_assoc. reflexivity.
Qed.

(** A call of the model that was given neither questions nor reviews. *)
Definition without_question_and_reviews (e : event F) : Prop :=
  match e with
  | ModelCalled a => m_question a = None /\ m_review a = NoReviews
  | _ => True
  end.

(** X20.  Under the answers-only variant train_batch passes None for the
    questions and for the reviews, whatever it was given. *)
Lemma train_batch_answers_only s0 q r a l :
  answers_only (model (self s0)) ->
  preserves (trace without_question_and_reviews s0) (train_batch env q r a l).
Proof.
  intros (HA & HQA & HQAR). unfold train_batch.
  apply preserves_bind;
    [unfold optimizer_method; preserve; apply trace_emit; exact I|intros _].
  apply preserves_bind; [preserve|intros answer_var].
  apply (preserves_gets_known _ _ (model (self s0)));
    [intros s Hs; apply (trace_model _ _ _ Hs)|].
  rewrite HA, HQAR. do 2 apply preserves_ret_bind.
  unfold call_model, backward, optimizer_method.
  preserve; try apply trace_np_random; try (apply trace_emit; cbn; auto).
Qed.

Lemma eval_step_answers_only s0 item acc :
  answers_only (model (self s0)) ->
  preserves (trace without_question_and_reviews s0) (eval_step env item acc).
Proof.
  intros (HA & HQA & HQAR).
  destruct item as [batch_itr inp]. destruct acc as [[fr ls] ps].
  unfold eval_step.
  apply (preserves_gets_known _ _ (model (self s0)));
    [intros s Hs; apply (trace_model _ _ _ Hs)|].
  apply preserves_bind; [preserve|intros [[answer_seqs answer_lengths] fr1]].
  apply preserves_bind; [preserve|intros answer_var].
  rewrite HA, HQAR. apply preserves_ret_bind. cbv zeta.
  apply preserves_ret_bind.
  unfold call_model, print.
  preserve; try (apply trace_every; preserve);
    try (apply trace_emit; cbn; auto).
Qed.

(** X21.  Under the answers-only variant every call of the model that eval
    makes is given None for the questions and for the reviews. *)
Lemma eval_answers_only s :
  answers_only (model (self s)) ->
  trace without_question_and_reviews s (snd (eval env s)).
Proof.
  intros Hvariant.
  assert (preserves (trace without_question_and_reviews s) (eval env)) as Hkeep.
  { unfold eval, eval_loop, _print_info, print.
    preserve; try (apply eval_step_answers_only; assumption);
      try (apply trace_emit; cbn; trivial). }
  apply Hkeep, trace_refl.
Qed.

End TrainerFacts.

(** * Further properties of the module *)

(** ** The mask of the loss *)

Section MaskFacts.
Context {F : Type} `{FloatOps F}.
Implicit Types (criterion : @Criterion F) (outputs : @outputs_t F).

(** The examples whose target length exceeds the timestep [t]. *)
Definition longer_than (t : nat) (target_lengths : list Z) : list bool :=
  map (fun z => Z.of_nat t <? z) target_lengths.

(** The sum of the criterion over the timesteps [ts], each taken over the
    examples whose target length exceeds it. *)
Fixpoint masked_sum (criterion : @Criterion F) (outputs : @outputs_t F)
    (targets : targets_t) (target_lengths : list Z) (ts : list nat)
    (sum : @loss_value F) : result (@loss_value F) :=
  match ts with
  | [] => Ok sum
  | t :: later =>
      out ← index outputs t;
      rows ← select (longer_than t target_lengths) out;
      col ← column targets t;
      tgt ← select (longer_than t target_lengths) col;
      c ← criterion rows tgt;
      masked_sum criterion outputs targets target_lengths later (loss_iadd sum c)
  end.

(** The remaining lengths after [t] decrements. *)
Definition remaining (t : nat) (target_lengths : list Z) : list Z :=
  map (fun z => z - Z.of_nat t) target_lengths.

Lemma active_remaining t l : active (remaining t l) = longer_than t l.
Proof.
  unfold active, remaining, longer_than. rewrite map_map.
  apply map_ext. intros z.
  destruct (Z.ltb_spec 0 (z - Z.of_nat t)), (Z.ltb_spec (Z.of_nat t) z);
    reflexivity || lia.
Qed.

Lemma decrement_remaining t l : decrement (remaining t l) = remaining (S t) l.
Proof.
  unfold decrement, remaining. rewrite map_map. apply map_ext. intros z. lia.
Qed.

Lemma loss_loop_masked_sum criterion outputs targets l n : forall t sum,
  (st ← loss_loop criterion outputs targets (seq t n) (remaining t l, sum);
   Ok (snd st))
  = masked_sum criterion outputs targets l (seq t n) sum.
Proof.
  induction n as [|n IH]; intros t sum; [reflexivity|].
  cbn [seq loss_loop masked_sum]. unfold loss_step.
  rewrite active_remaining, decrement_remaining.
  destruct (index outputs t) as [out|e]; [cbn|reflexivity].
  destruct (select (longer_than t l) out) as [rows|e]; [cbn|reflexivity].
  destruct (column targets t) as [col|e]; [cbn|reflexivity].
  destruct (select (longer_than t l) col) as [tgt|e]; [cbn|reflexivity].
  destruct (criterion rows tgt) as [c|e]; [cbn|reflexivity].
  apply IH.
Qed.

Lemma remaining_0 l : remaining 0 l = l.
Proof.
  unfold remaining. rewrite <- (map_id l) at 2. apply map_ext. intros z. lia.
Qed.

(** X3.  At the step of index t the loss takes the criterion over exactly
    the examples whose target length exceeds t: the counter that the loop
    decrements is the target length minus the index. *)
Theorem batch_loss_masks_by_length criterion outputs target_lengths targets :
  _batch_loss criterion outputs target_lengths targets
  = (sum ← masked_sum criterion outputs targets target_lengths
             (seq 0 (length target_lengths)) LossZero;
     loss_div sum (length outputs)).
Proof.
  unfold _batch_loss.
  rewrite <- (loss_loop_masked_sum criterion outputs targets target_lengths _ 0%nat).
  rewrite remaining_0.
  destruct (loss_loop _ _ _ _ _) as [[l' sum]|e]; reflexivity.
Qed.

(** Rows that agree wherever the mask selects are selected alike. *)
Lemma picked_agree {A} (mask : list bool) : forall (xs ys : list A),
  length xs = length ys ->
  (forall i, mask !! i = Some true -> xs !! i = ys !! i) ->
  map snd (filter (fun p => fst p = true) (zip mask xs))
  = map snd (filter (fun p => fst p = true) (zip mask ys)).
Proof.
  induction mask as [|b mask IH]; intros [|x xs] [|y ys] Hlen Hagree;
    try discriminate; try reflexivity.
  injection Hlen as Hlen.
  specialize (IH xs ys Hlen (fun i => Hagree (S i))).
  cbn [zip zip_with]. rewrite !filter_cons. cbn [fst].
  destruct b.
  - specialize (Hagree 0%nat eq_refl). cbn in Hagree. injection Hagree as ->.
    rewrite !decide_True by reflexivity. cbn. rewrite IH. reflexivity.
  - rewrite !decide_False by discriminate. exact IH.
Qed.

Lemma select_agree {A} (mask : list bool) (xs ys : list A) :
  length xs = length ys ->
  (forall i, mask !! i = Some true -> xs !! i = ys !! i) ->
  select mask xs = select mask ys.
Proof.
  intros Hlen Hagree. unfold select. rewrite <- Hlen.
  rewrite (picked_agree mask xs ys Hlen Hagree). reflexivity.
Qed.

Lemma longer_than_lookup t l i :
  longer_than t l !! i = Some true ->
  exists z, l !! i = Some z /\ Z.of_nat t < z.
Proof.
  unfold longer_than. rewrite list_lookup_fmap.
  destruct (l !! i) as [z|]; [|discriminate]. cbn. intros [= Hlt].
  exists z. split; [reflexivity|]. apply Z.ltb_lt, Hlt.
Qed.

(** Outputs that agree, at every timestep, on the examples that have not
    ended yet. *)
Definition agree_until_end (target_lengths : list Z) (outputs outputs' : @outputs_t F)
    : Prop :=
  length outputs = length outputs' /\
  forall t out out',
    outputs !! t = Some out -> outputs' !! t = Some out' ->
    length out = length out' /\
    forall i z, target_lengths !! i = Some z -> Z.of_nat t < z ->
                out !! i = out' !! i.

Lemma masked_sum_agree criterion outputs outputs' targets l ts :
  agree_until_end l outputs outputs' ->
  forall sum,
    masked_sum criterion outputs targets l ts sum
    = masked_sum criterion outputs' targets l ts sum.
Proof.
  intros [Hlen Hagree]. unfold outputs_t in *.
  induction ts as [|t ts IH]; intros sum; [reflexivity|].
  cbn [masked_sum]. unfold index.
  destruct (outputs !! t) as [out|] eqn:Hout.
  - destruct (lookup_lt_is_Some_2 outputs' t) as [out' Hout'].
    { rewrite <- Hlen. eapply lookup_lt_Some, Hout. }
    rewrite Hout'. cbn [mbind result_bind].
    destruct (Hagree t out out' Hout Hout') as [Hrows Hsame].
    rewrite (select_agree (longer_than t l) out out' Hrows).
    + destruct (select _ out') as [rows|e]; [cbn|reflexivity].
      destruct (column targets t) as [col|e]; [cbn|reflexivity].
      destruct (select _ col) as [tgt|e]; [cbn|reflexivity].
      destruct (criterion rows tgt) as [c|e]; [cbn|reflexivity].
      apply IH.
    + intros i Hi. apply longer_than_lookup in Hi as (z & Hz & Hlt). eauto.
  - rewrite (lookup_ge_None_2 outputs' t); [reflexivity|].
    rewrite <- Hlen. apply lookup_ge_None, Hout.
Qed.

(** X4.  The loss does not depend on what the model outputs for an example
    at the timesteps after its end: two outputs that agree on every example
    at every timestep below its target length give the same loss. *)
Theorem batch_loss_ignores_ended_examples criterion outputs outputs'
    target_lengths targets :
  agree_until_end target_lengths outputs outputs' ->
  _batch_loss criterion outputs target_lengths targets
  = _batch_loss criterion outputs' target_lengths targets.
Proof.
  intros Hagree. unfold _batch_loss.
  pose proof (loss_loop_masked_sum criterion outputs targets target_lengths
                (length target_lengths) 0%nat LossZero) as Hleft.
  pose proof (loss_loop_masked_sum criterion outputs' targets target_lengths
                (length target_lengths) 0%nat LossZero) as Hright.
  rewrite remaining_0 in Hleft, Hright.
  rewrite <- (masked_sum_agree criterion outputs outputs' targets target_lengths
                _ Hagree) in Hright.
  rewrite <- Hleft in Hright. destruct Hagree as [<- _].
  destruct (loss_loop criterion outputs _ _ _) as [[l1 sum1]|e1],
           (loss_loop criterion outputs' _ _ _) as [[l2 sum2]|e2];
    cbn in Hright; try discriminate; injection Hright as <-; reflexivity.
Qed.

End MaskFacts.

(** X1 at four output timesteps and two examples. *)
Lemma batch_loss_prefix_witness :
  let outputs := replicate 4 [Example.scores; Example.scores] in
  let targets := [[0; 0; 0; 0]; [0; 0; 0; 0]] in
  _batch_loss Example.nll outputs [4; 1] targets
  = (sum ← masked_nll_steps Example.nll targets 0 (take 2 outputs) [4; 1] LossZero;
     loss_div sum 4).
Proof.
  cbv zeta.
  apply (batch_loss_prefix Example.nll
           (replicate 4 [Example.scores; Example.scores]) [4; 1]).
  cbn. lia.
Defined.

(** X2 at two output timesteps and three examples. *)
Lemma batch_loss_overrun_witness :
  exists e,
    _batch_loss Example.nll (replicate 2 (replicate 3 Example.scores)) [3; 1; 1]
      (replicate 3 [0; 0; 0]) = Err e.
Proof.
  apply batch_loss_overrun. cbn. lia.
Defined.

(** X4 at two examples of lengths 2 and 1: the scores of the second example
    at the second timestep do not count. *)
Lemma batch_loss_ignores_ended_examples_witness :
  _batch_loss Example.nll
    [[Example.scores; Example.scores]; [Example.scores; Example.scores]]
    [2; 1] [[0; 0]; [0; 0]]
  = _batch_loss Example.nll
      [[Example.scores; Example.scores]; [Example.scores; [5%Q; 7%Q]]]
      [2; 1] [[0; 0]; [0; 0]].
Proof.
  apply batch_loss_ignores_ended_examples. split; [reflexivity|].
  intros t out out' Hout Hout'.
  destruct t as [|[|t]]; cbn in Hout, Hout'; try discriminate;
    injection Hout as <-; injection Hout' as <-; (split; [reflexivity|]);
    intros i z Hi Hlt; destruct i as [|[|i]]; cbn in Hi; try discriminate;
    injection Hi as <-; reflexivity || lia.
Defined.

(** ** Loops with locals *)

Section LoopFacts.
Context {S : Type}.

Lemma bind_raises {A B} (m : Action S A) (f : A -> Action S B) s e :
  fst (m s) = Err e -> fst ((m ≫= f) s) = Err e.
Proof.
  unfold mbind, action_bind. destruct (m s) as [[a|e'] s1]; cbn;
    [discriminate|intros [= ->]; reflexivity].
Qed.

Lemma bind_ret {A B} (a : A) (k : A -> Action S B) s : (mret a ≫= k) s = k a s.
Proof. reflexivity. Qed.

(** A property of the state kept by the iterations of a loop whose locals
    satisfy [I], which every returning iteration re-establishes. *)
Lemma preserves_for_each_locals {X L} (P : S -> Prop) (I : L -> Prop)
    (body : X -> L -> Action S L) xs :
  (forall x acc, I acc -> preserves P (body x acc)) ->
  (forall x acc s acc' s', I acc -> body x acc s = (Ok acc', s') -> I acc') ->
  forall acc, I acc -> preserves P (for_each body xs acc).
Proof.
  intros Hkeep Hlocals. induction xs as [|x xs IH]; intros acc Hacc s Hs.
  - exact Hs.
  - cbn [for_each]. unfold mbind, action_bind.
    pose proof (Hkeep x acc Hacc s Hs) as Hs1.
    destruct (body x acc s) as [[acc1|e] s1] eqn:Hx; [|exact Hs1].
    apply IH; [eapply Hlocals; eauto|exact Hs1].
Qed.

End LoopFacts.

(** ** The training loop *)

Section TrainFacts.
Context {F : Type} `{FloatOps F} `{NumpyOps F} (env : Env F).

Local Abbreviation C := (env_constants env).
Local Open Scope list_scope.

(** The dispatch never binds review_seqs: its only branch that would is
    behind a test that has already failed. *)
Lemma dispatch_keeps_reviews m inp fr answer_seqs answer_lengths fr' :
  dispatch env m inp fr = Ok (answer_seqs, answer_lengths, fr') ->
  review_local fr' = review_local fr.
Proof.
  unfold dispatch.
  destruct (py_eq m (LM_ANSWERS C)); [|destruct (py_eq m (LM_QUESTION_ANSWERS C))];
    destruct inp; try discriminate; intros [= _ _ <-]; reflexivity.
Qed.

(** With review_seqs unbound, an iteration of the batch loop of train
    raises before it has done anything. *)
Lemma train_step_raises item fr s :
  review_local fr = None -> exists e, train_step env item fr s = (Err e, s).
Proof.
  intros Hrev. destruct item as [batch_itr inp]. unfold train_step.
  rewrite bind_gets.
  destruct (dispatch env (model (self s)) inp fr)
    as [[[answer_seqs answer_lengths] fr']|e] eqn:Hdispatch;
    [rewrite bind_lift_Ok|rewrite bind_lift_Err; eauto].
  apply dispatch_keeps_reviews in Hdispatch. rewrite Hrev in Hdispatch.
  unfold read_local. rewrite Hdispatch.
  destruct (quesion_local fr'); [rewrite bind_lift_Ok|];
    rewrite bind_lift_Err; eauto.
Qed.

Lemma train_step_keeps_unbound item fr s fr' s' :
  review_local fr = None ->
  train_step env item fr s = (Ok fr', s') -> review_local fr' = None.
Proof.
  intros Hrev Hrun. destruct (train_step_raises item fr s Hrev) as [e He].
  congruence.
Qed.

Lemma train_epoch_keeps_unbound epoch fr s fr' s' :
  review_local fr = None ->
  train_epoch env epoch fr s = (Ok fr', s') -> review_local fr' = None.
Proof.
  intros Hrev Hrun. unfold train_epoch in Hrun.
  apply bind_Ok in Hrun as (u & s1 & _ & Hrun).
  apply bind_Ok in Hrun as (batches & s2 & _ & Hrun).
  apply bind_Ok in Hrun as (fr1 & s3 & Hloop & Hrun).
  apply bind_Ok in Hrun as (n & s4 & _ & Hrun).
  apply bind_Ok in Hrun as (u1 & s5 & _ & Hrun).
  apply bind_Ok in Hrun as (u2 & s6 & _ & Hrun).
  injection Hrun as <- _.
  apply (for_each_locals (fun fr => review_local fr = None)) in Hloop;
    [exact Hloop| |exact Hrev].
  intros item acc t acc' t'. apply train_step_keeps_unbound.
Qed.

(** The first epoch never ends: a batch raises, or the checkpoint does. *)
Lemma train_epoch_first_raises fr s :
  review_local fr = None -> exists e, fst (train_epoch env 0 fr s) = Err e.
Proof.
  intros Hrev. unfold train_epoch, print, emit.
  rewrite bind_modify, bind_gets.
  set (s1 := with_world _ s).
  destruct (dataloader (self s1)) as [|b rest].
  - cbn [enumerate length seq map zip zip_with for_each].
    rewrite bind_ret, bind_gets.
    unfold every. destruct (save_model_every (self s1) =? 0).
    + exists ZeroDivisionError. reflexivity.
    + rewrite Zmod_0_l. cbn [Z.eqb].
      destruct (save_model_raises env s1) as [e He]. exists e.
      apply bind_raises, He.
  - destruct (enumerate_cons b rest) as [items ->]. cbn [for_each].
    destruct (train_step_raises (0, b) fr s1 Hrev) as [e He]. exists e.
    apply bind_raises, bind_raises. rewrite He. reflexivity.
Qed.

(** X5.  train never gets through an epoch: whenever the configured number
    of epochs is at least one, train raises.  In the first epoch a batch
    raises at the dispatch or at the unbound quesion_seqs or review_seqs,
    and with no batch the checkpoint of epoch 0 raises. *)
Theorem train_raises_in_its_first_epoch s n :
  subscript (params (self s)) (EPOCHS C) = Ok (PInt n) ->
  0 < n ->
  exists e, fst (train env s) = Err e.
Proof.
  intros Hepochs Hn. unfold train.
  destruct (_set_optimizer env (PFloat (f_of_Z 1)) s) as [[r|e] s1] eqn:Hset.
  - rewrite (bind_step _ _ _ _ _ Hset).
    apply set_optimizer_Ok in Hset as (lr & rate & _ & _ & _ & ->).
    rewrite bind_gets. cbn [self with_self params set_optimizer].
    rewrite Hepochs, bind_lift_Ok. unfold py_range. rewrite bind_lift_Ok.
    unfold range. destruct (Z.to_nat n) as [|k] eqn:Hk; [lia|].
    cbn [seq map for_each].
    edestruct (train_epoch_first_raises unbound) as [e He]; [reflexivity|].
    exists e. apply bind_raises, bind_raises, He.
  - exists e. rewrite (bind_Err _ _ _ _ _ Hset). reflexivity.
Qed.

(** A line on the console. *)
Definition is_print (e : event F) : Prop :=
  match e with
  | Printed _ _ => True
  | _ => False
  end.

(** From [s0] to [s] nothing was recorded, written or asked of the model
    or the optimizer: the histories and the files are as they were and the
    events that were added are lines on the console. *)
Definition console_only (s0 s : state F) : Prop :=
  loss (self s) = loss (self s0) /\
  perplexity (self s) = perplexity (self s0) /\
  files (world s) = files (world s0) /\
  exists new, events (world s) = events (world s0) ++ new /\ Forall is_print new.

Lemma console_refl s : console_only s s.
Proof.
  repeat split. exists []. rewrite app_nil_r. split; [reflexivity|constructor].
Qed.

Lemma console_print s0 fmt args : preserves (console_only s0) (print fmt args).
Proof.
  intros s (Hloss & Hppl & Hfiles & new & Hev & Hnew).
  repeat split; try assumption.
  exists (new ++ [Printed fmt args]). cbn. rewrite Hev, app_assoc.
  split; [reflexivity|]. apply Forall_app. split; [exact Hnew|].
  constructor; [exact I|constructor].
Qed.

Lemma console_set_optimizer s0 d : preserves (console_only s0) (_set_optimizer env d).
Proof.
  unfold _set_optimizer. preserve. apply preserves_modify. intros s Hs. exact Hs.
Qed.

Lemma console_save_model s0 : preserves (console_only s0) (save_model env).
Proof.
  intros s (Hloss & Hppl & Hfiles & new & Hev & Hnew).
  destruct (save_model_frame env s) as (Hself & Hevents & Hsame & _).
  unfold console_only. rewrite Hself, Hevents, Hsame. eauto 10.
Qed.

Lemma console_decay_branch s0 epoch : preserves (console_only s0) (decay_branch env epoch).
Proof.
  unfold decay_branch.
  preserve; try apply console_set_optimizer;
    try (apply preserves_modify; intros s Hs; exact Hs).
Qed.

Lemma preserves_every (P : state F -> Prop) k n body :
  preserves P body -> preserves P (every k n body).
Proof.
  intros Hbody. unfold every.
  destruct (n =? 0); [apply preserves_raise|].
  destruct (k mod n =? 0); [exact Hbody|apply preserves_ret].
Qed.

Lemma console_train_step s0 item fr :
  review_local fr = None -> preserves (console_only s0) (train_step env item fr).
Proof.
  intros Hrev s Hs. destruct (train_step_raises item fr s Hrev) as [e ->].
  exact Hs.
Qed.

Lemma console_train_epoch s0 epoch fr :
  review_local fr = None -> preserves (console_only s0) (train_epoch env epoch fr).
Proof.
  intros Hrev. unfold train_epoch.
  apply preserves_bind; [apply console_print|intros _].
  apply preserves_bind; [preserve|intros batches].
  apply preserves_bind.
  { apply (preserves_for_each_locals _ (fun fr => review_local fr = None));
      [intros; apply console_train_step; assumption| |exact Hrev].
    intros item acc t acc' t'. apply train_step_keeps_unbound. }
  intros fr1. apply preserves_bind; [preserve|intros n].
  apply preserves_bind.
  { apply preserves_every, console_save_model. }
  intros _. apply preserves_bind; [apply console_decay_branch|intros _]. preserve.
Qed.

Lemma console_train s0 : preserves (console_only s0) (train env).
Proof.
  unfold train.
  apply preserves_bind; [apply console_set_optimizer|intros _].
  apply preserves_bind; [preserve|intros p].
  apply preserves_bind; [preserve|intros v].
  apply preserves_bind; [preserve|intros epochs].
  apply preserves_bind; [|preserve].
  apply (preserves_for_each_locals _ (fun fr => review_local fr = None));
    [intros; apply console_train_epoch; assumption| |reflexivity].
  intros epoch acc t acc' t'. apply train_epoch_keeps_unbound.
Qed.

(** X6.  train trains nothing: whatever the trainer, the loader and the
    variant, a call of train never calls the model, never computes a
    gradient and never steps the optimizer; it appends nothing to the loss
    and perplexity histories and writes no file.  All it adds to the events
    are lines on the console. *)
Theorem train_trains_nothing (s : state F) : console_only s (snd (train env s)).
Proof. apply console_train, console_refl. Qed.

(** The first epoch, in full: it raises, and no field of the trainer has
    changed when it does. *)
Lemma train_epoch_first_run fr s :
  review_local fr = None ->
  exists e s', train_epoch env 0 fr s = (Err e, s') /\ self s' = self s.
Proof.
  intros Hrev. unfold train_epoch, print, emit.
  rewrite bind_modify, bind_gets.
  set (s1 := with_world _ s).
  destruct (dataloader (self s1)) as [|b rest].
  - cbn [enumerate length seq map zip zip_with for_each].
    rewrite bind_ret, bind_gets.
    unfold every. destruct (save_model_every (self s1) =? 0).
    + exists ZeroDivisionError, s1. split; reflexivity.
    + rewrite Zmod_0_l. cbn [Z.eqb].
      destruct (save_model_frame env s1) as [Hself _].
      destruct (save_model_raises env s1) as [e He].
      destruct (save_model env s1) as [r s2] eqn:Hsave. cbn in He, Hself. subst r.
      exists e, s2. split; [|exact Hself].
      rewrite (bind_Err _ _ _ _ _ Hsave). reflexivity.
  - destruct (enumerate_cons b rest) as [items ->]. cbn [for_each].
    destruct (train_step_raises (0, b) fr s1 Hrev) as [e He].
    exists e, s1. split; [|reflexivity].
    apply bind_Err, bind_Err, He.
Qed.

(** X22.  All that train ever does to the trainer is its first call of
    _set_optimizer, at the configured rate times 1.0: whatever the epochs,
    the loader and the decay that are configured, the fields after train are
    the fields after that call.  No run installs a decayed rate. *)
Theorem train_only_sets_the_first_optimizer (s : state F) :
  self (snd (train env s))
  = self (snd (_set_optimizer env (PFloat (f_of_Z 1)) s)).
Proof.
  unfold train.
  destruct (_set_optimizer env (PFloat (f_of_Z 1)) s) as [[r|e] s1] eqn:Hset;
    [|rewrite (bind_Err _ _ _ _ _ Hset); reflexivity].
  rewrite (bind_step _ _ _ _ _ Hset), bind_gets. cbn [snd].
  destruct (subscript (params (self s1)) (EPOCHS C)) as [v|e];
    [rewrite bind_lift_Ok|reflexivity].
  destruct v as [n|x|str]; try reflexivity.
  unfold py_range. rewrite bind_lift_Ok. unfold range.
  destruct (Z.to_nat n) as [|k]; [reflexivity|].
  cbn [seq map for_each].
  destruct (train_epoch_first_run unbound s1 eq_refl) as (e & s' & Hrun & Hself).
  rewrite (bind_Err _ _ _ _ _ (bind_Err _ _ _ _ _ Hrun)). exact Hself.
Qed.

End TrainFacts.

(** X5 at a trainer of the answers-only variant with two epochs configured. *)
Lemma train_raises_in_its_first_epoch_witness :
  exists e,
    fst (train Example.env0
           {| self := Example.trainer0 (PyObj (Example.net "LM_ANSWERS" 2))
                        [BatchA Example.answers2 [2; 1]];
              world := Example.world0 |}) = Err e.
Proof.
  apply (train_raises_in_its_first_epoch Example.env0 _ 2); [reflexivity|lia].
Defined.

(** ** Statements that return *)

Section Inversions.
Context {S : Type}.

Lemma lift_Ok {A} (r : result A) (s : S) a s1 :
  lift r s = (Ok a, s1) -> r = Ok a /\ s1 = s.
Proof. unfold lift. intros [= -> ->]. split; reflexivity. Qed.

Lemma gets_Ok {A} (f : S -> A) (s : S) a s1 :
  gets f s = (Ok a, s1) -> a = f s /\ s1 = s.
Proof. unfold gets. intros [= <- <-]. split; reflexivity. Qed.

Lemma ret_Ok {A} (a0 : A) (s : S) a s1 :
  (mret a0 : Action S A) s = (Ok a, s1) -> a = a0 /\ s1 = s.
Proof. intros [= <- <-]. split; reflexivity. Qed.

End Inversions.

(** ** One optimization step *)

Section BatchFacts.
Context {F : Type} `{FloatOps F} `{NumpyOps F} (env : Env F).

Local Abbreviation C := (env_constants env).
Local Open Scope list_scope.

Lemma optimizer_method_Ok name (e : Optimizer F -> event F) (s : state F) u s1 :
  optimizer_method name e s = (Ok u, s1) ->
  exists opt, optimizer (self s) = Some opt /\ s1 = with_world (add_event (e opt)) s.
Proof.
  unfold optimizer_method. rewrite bind_gets.
  destruct (optimizer (self s)) as [opt|]; [|discriminate].
  intros [= _ <-]. eauto.
Qed.

Lemma call_model_Ok (a : model_args) (s : state F) outputs s1 :
  call_model a s = (Ok outputs, s1) -> s1 = with_world (add_event (ModelCalled a)) s.
Proof.
  unfold call_model. rewrite bind_gets.
  destruct (model (self s)) as [| |o]; try discriminate.
  destruct (obj_call o) as [forward|]; [|discriminate].
  rewrite bind_gets. unfold emit. rewrite bind_modify.
  intros Hrun. apply lift_Ok in Hrun as [_ ->]. reflexivity.
Qed.

Lemma backward_Ok (l : @loss_value F) (s : state F) u s1 :
  backward l s = (Ok u, s1) ->
  exists x, l = LossVar x /\ s1 = with_world (add_event (Backward x)) s.
Proof.
  destruct l as [|x]; [discriminate|]. intros [= _ <-]. eauto.
Qed.

(** X7.  A train_batch that returns has done, in this order and nothing
    else: optimizer.zero_grad(), one draw of np.random.random(), one call of
    the model, loss.backward() on the loss it returns, and optimizer.step()
    at the rate of the optimizer; teacher forcing was on exactly when the
    draw was below the configured ratio; no field of the trainer changed. *)
Theorem train_batch_runs_in_order q r a l (s : state F) x s' :
  train_batch env q r a l s = (Ok x, s') ->
  exists opt args ratio,
    optimizer (self s) = Some opt /\
    subscript (params (self s)) (TEACHER_FORCING_RATIO C) = Ok ratio /\
    py_float_lt (randoms (world s) (drawn (world s))) ratio
      = Ok (m_teacher_forcing args) /\
    self s' = self s /\
    drawn (world s') = Datatypes.S (drawn (world s)) /\
    events (world s')
    = events (world s) ++ [ZeroGrad; ModelCalled args; Backward x; Step (opt_lr opt)].
Proof.
  unfold train_batch. intros Hrun.
  apply bind_Ok in Hrun as (u0 & s1 & Hzero & Hrun).
  apply optimizer_method_Ok in Hzero as (opt & Hopt & ->).
  apply bind_Ok in Hrun as (answer_var & s2 & Hvar & Hrun).
  apply lift_Ok in Hvar as [_ ->].
  rewrite bind_gets in Hrun.
  apply bind_Ok in Hrun as (quesion & s3 & Hq & Hrun).
  assert (s3 = with_world (add_event ZeroGrad) s) as ->.
  { destruct (py_eq _ _); [apply ret_Ok in Hq as [_ ->]; reflexivity|].
    apply bind_Ok in Hq as (t & s4 & Ht & Hq).
    apply lift_Ok in Ht as [_ ->]. apply ret_Ok in Hq as [_ ->]. reflexivity. }
  apply bind_Ok in Hrun as (review & s4 & Hr & Hrun).
  assert (s4 = with_world (add_event ZeroGrad) s) as ->.
  { destruct (py_eq _ _); [apply lift_Ok in Hr as [_ ->]|apply ret_Ok in Hr as [_ ->]];
      reflexivity. }
  apply bind_Ok in Hrun as (target_seqs & s5 & Htarget & Hrun).
  apply lift_Ok in Htarget as [_ ->].
  apply bind_Ok in Hrun as (draw & s6 & Hdraw & Hrun).
  unfold np_random in Hdraw. injection Hdraw as <- <-.
  rewrite bind_gets in Hrun.
  apply bind_Ok in Hrun as (ratio & s7 & Hratio & Hrun).
  apply lift_Ok in Hratio as [Hratio ->].
  apply bind_Ok in Hrun as (tf & s8 & Htf & Hrun).
  apply lift_Ok in Htf as [Htf ->].
  apply bind_Ok in Hrun as (outputs & s9 & Hcall & Hrun).
  apply call_model_Ok in Hcall as ->.
  rewrite bind_gets in Hrun.
  apply bind_Ok in Hrun as (lv & s10 & Hloss & Hrun).
  apply lift_Ok in Hloss as [_ ->].
  apply bind_Ok in Hrun as (u1 & s11 & Hback & Hrun).
  apply backward_Ok in Hback as (x' & -> & ->).
  apply bind_Ok in Hrun as (u2 & s12 & Hstep & Hrun).
  apply optimizer_method_Ok in Hstep as (opt' & Hopt' & ->).
  apply lift_Ok in Hrun as [Hx ->]. injection Hx as ->.
  cbn in Hopt'. rewrite Hopt in Hopt'. injection Hopt' as <-.
  exists opt, {| m_question := quesion; m_review := review;
                 m_answer := answer_var; m_teacher_forcing := tf |}, ratio.
  split; [exact Hopt|]. split; [exact Hratio|].
  split; [exact Htf|]. split; [reflexivity|]. split; [reflexivity|].
  cbn. rewrite <- !app_assoc. reflexivity.
Qed.

(** X8.  On a batch with no example train_batch always raises: the loss of
    no timestep is the number 0, which has no backward(), unless the model
    gave no output either and the division by len(outputs) raises first. *)
Theorem train_batch_raises_on_empty_batch q r a (s : state F) :
  exists e, fst (train_batch env q r a [] s) = Err e.
Proof.
  destruct (train_batch env q r a [] s) as [[x|e] s'] eqn:Hrun; [exfalso|eauto].
  unfold train_batch in Hrun.
  apply bind_Ok in Hrun as (u0 & s1 & _ & Hrun).
  apply bind_Ok in Hrun as (answer_var & s2 & _ & Hrun).
  apply bind_Ok in Hrun as (m & s3 & _ & Hrun).
  apply bind_Ok in Hrun as (quesion & s4 & _ & Hrun).
  apply bind_Ok in Hrun as (review & s5 & _ & Hrun).
  apply bind_Ok in Hrun as (target_seqs & s6 & _ & Hrun).
  apply bind_Ok in Hrun as (draw & s7 & _ & Hrun).
  apply bind_Ok in Hrun as (p & s8 & _ & Hrun).
  apply bind_Ok in Hrun as (ratio & s9 & _ & Hrun).
  apply bind_Ok in Hrun as (tf & s10 & _ & Hrun).
  apply bind_Ok in Hrun as (outputs & s11 & _ & Hrun).
  apply bind_Ok in Hrun as (crit & s12 & _ & Hrun).
  apply bind_Ok in Hrun as (lv & s13 & Hloss & Hrun).
  apply lift_Ok in Hloss as [Hloss ->].
  apply bind_Ok in Hrun as (u1 & s14 & Hback & _).
  apply backward_Ok in Hback as (x' & -> & _).
  unfold _batch_loss in Hloss. cbn in Hloss.
  destruct (Nat.eqb (length outputs) 0); discriminate.
Qed.

(** X9.  The rate _set_optimizer installs does not build on the optimizer in
    place: a second call with the same factor on the trainer the first call
    left installs the same optimizer again. *)
Theorem set_optimizer_is_not_cumulative lr_decay (s : state F) r s1 :
  _set_optimizer env lr_decay s = (Ok r, s1) ->
  _set_optimizer env lr_decay s1 = (Ok None, s1).
Proof.
  unfold _set_optimizer. intros Hrun.
  rewrite bind_gets in Hrun.
  apply bind_Ok in Hrun as (u & s2 & Hparameters & Hrun).
  apply lift_Ok in Hparameters as [Hparameters ->].
  rewrite bind_gets in Hrun.
  apply bind_Ok in Hrun as (lr & s3 & Hlr & Hrun).
  apply lift_Ok in Hlr as [Hlr ->].
  apply bind_Ok in Hrun as (rate & s4 & Hrate & Hrun).
  apply lift_Ok in Hrate as [Hrate ->].
  rewrite bind_modify in Hrun. injection Hrun as _ <-.
  rewrite bind_gets. cbn [self with_self model params set_optimizer].
  rewrite Hparameters, bind_lift_Ok, bind_gets.
  cbn [self with_self model params set_optimizer].
  rewrite Hlr, bind_lift_Ok, Hrate, bind_lift_Ok, bind_modify. reflexivity.
Qed.

End BatchFacts.

(** X7 at one step of a trainer of the answers-only variant: the draw 1/4
    is below the ratio 1/2. *)
Lemma train_batch_runs_in_order_witness :
  let s := {| self := set_optimizer (Some {| opt_lr := PFloat (1 # 2)%Q |})
                        (Example.trainer0 (PyObj (Example.net "LM_ANSWERS" 2)) []);
              world := Example.world0 |} in
  exists opt args ratio,
    optimizer (self s) = Some opt /\
    subscript (params (self s)) "teacher_forcing_ratio" = Ok ratio /\
    py_float_lt (1 # 4)%Q ratio = Ok (m_teacher_forcing args) /\
    events (world (snd (train_batch Example.env0 OfNone NoReviews
                          (OfSeqs Example.answers2) [2; 1] s)))
    = [ZeroGrad; ModelCalled args; Backward 1%Q; Step (opt_lr opt)].
Proof.
  cbv zeta.
  set (s := {| self := _; world := _ |}).
  destruct (train_batch Example.env0 OfNone NoReviews (OfSeqs Example.answers2)
              [2; 1] s) as [r s'] eqn:Hrun.
  assert (r = Ok 1%Q) as ->.
  { change r with (fst (r, s')). rewrite <- Hrun. vm_compute. reflexivity. }
  destruct (train_batch_runs_in_order Example.env0 _ _ _ _ s 1%Q s' Hrun)
    as (opt & args & ratio & Hopt & Hratio & Htf & _ & _ & Hevents).
  exists opt, args, ratio. repeat split; assumption.
Defined.

(** X9 at the factor 1/2 on a configured rate of 1/2. *)
Lemma set_optimizer_is_not_cumulative_witness :
  let s := {| self := Example.trainer0 (PyObj (Example.net "LM_ANSWERS" 2)) [];
              world := Example.world0 |} in
  let s1 := snd (_set_optimizer Example.env0 (PFloat (1 # 2)%Q) s) in
  optimizer (self s1) = Some {| opt_lr := PFloat (1 # 4)%Q |} /\
  _set_optimizer Example.env0 (PFloat (1 # 2)%Q) s1 = (Ok None, s1).
Proof.
  cbv zeta.
  set (s := {| self := _; world := _ |}).
  split; [vm_compute; reflexivity|].
  apply (set_optimizer_is_not_cumulative Example.env0 _ s None).
  destruct (_set_optimizer Example.env0 (PFloat (1 # 2)%Q) s) as [r s1] eqn:Hrun.
  cbn [snd]. f_equal.
  change r with (fst (r, s1)). rewrite <- Hrun. vm_compute. reflexivity.
Defined.

(** ** Checkpoints, evaluation and construction *)

Section MoreFacts.
Context {F : Type} `{FloatOps F} `{NumpyOps F} (env : Env F).

Local Abbreviation C := (env_constants env).
Local Open Scope list_scope.

(** X10.  When _ensure_path returns, the path exists, and a second call
    returns and changes nothing; the call has changed no field of the trainer
    and, of the world, only the set of directories, from which it removed
    none. *)
Theorem ensure_path_is_idempotent (path : string) (s : state F) u s1 :
  _ensure_path path s = (Ok u, s1) ->
  path_exists path (world s1) = true /\
  _ensure_path path s1 = (Ok tt, s1) /\
  self s1 = self s /\
  only_more_dirs (world s) (world s1).
Proof.
  intros Hrun. pose proof (ensure_path_Ok path s u s1 Hrun) as Hexists.
  split; [exact Hexists|]. split.
  - unfold _ensure_path. rewrite Hexists. reflexivity.
  - pose proof (ensure_path_self path s) as Hself.
    pose proof (ensure_path_world path s) as Hworld.
    rewrite Hrun in Hself, Hworld. split; assumption.
Qed.

(** X11.  Without a model name to read (params is None, or has no such
    key) save_model raises that error before it touches anything. *)
Theorem save_model_without_model_name (s : state F) e :
  subscript (params (self s)) (MODEL_NAME C) = Err e ->
  save_model env s = (Err e, s).
Proof. intros Hname. rewrite save_model_run, Hname. reflexivity. Qed.

(** X12.  With a model name to read: when the directory
    <base_path>/<model_name>/<timestamp> exists or can be made, save_model
    leaves it existing and raises the TypeError of the third file name; when
    making it raises, save_model raises that error; either way no directory
    that existed is removed. *)
Theorem save_model_makes_the_directory (s : state F) name :
  subscript (params (self s)) (MODEL_NAME C) = Ok name ->
  let save_dir :=
    (BASE_PATH C ++ "/" ++ py_str name ++ "/" ++ strftime (now (world s)))%string in
  (forall u s1,
      _ensure_path save_dir s = (Ok u, s1) ->
      save_model env s = (Err (UnsupportedOperand "&" TStr TTuple), s1) /\
      path_exists save_dir (world s1) = true) /\
  (forall e s1,
      _ensure_path save_dir s = (Err e, s1) -> save_model env s = (Err e, s1)) /\
  dirs (world s) ⊆ dirs (world (snd (save_model env s))).
Proof.
  intros Hname save_dir. split; [|split].
  - intros u s1 Hensure. rewrite save_model_run, Hname. fold save_dir.
    cbv zeta. rewrite Hensure. split; [reflexivity|].
    eapply ensure_path_Ok, Hensure.
  - intros e s1 Hensure. rewrite save_model_run, Hname. fold save_dir.
    cbv zeta. rewrite Hensure. reflexivity.
  - apply (save_model_frame env s).
Qed.

(** X13.  Over an empty loader eval calls nothing and prints the two lines
    of _print_info on the means of two empty lists. *)
Theorem eval_of_an_empty_loader (s : state F) :
  dataloader (self s) = [] ->
  eval env s
  = (Ok tt,
     with_world
       (add_event (Printed "Epoch = %d, [%s] Perplexity = %.2f"
                     [AInt 1; AStr "Development"; AFloat (np_mean [])]))
       (with_world
          (add_event (Printed "Epoch = %d, [%s] Loss = %.2f"
                        [AInt 1; AStr "Development"; AFloat (np_mean [])]))
          s)).
Proof.
  intros Hempty. unfold eval, eval_loop.
  unfold mbind at 1, action_bind at 1. rewrite bind_gets, Hempty. reflexivity.
Qed.

(** X14.  A constructor call that returns had the five hyperparameters of
    the model in params; it has seeded the random generators and done nothing
    else to the world, and the trainer starts with the loader, the vocabulary
    and the cadences it was given and with empty histories. *)
Theorem init_reads_the_model_hyperparameters dl (ps : gmap string (pval F))
    seed sme pe dev v (w : World F) t w' :
  __init__ env dl ps seed sme pe dev v w = (Ok t, w') ->
  Forall (fun k => is_Some (ps !! k))
    [VOCAB_SIZE C; HDIM C; OUTPUT_MAX_LEN C; H_LAYERS C; DROPOUT C] /\
  w' = add_event (Seeded seed) w /\
  dataloader t = dl /\ vocab t = v /\
  save_model_every t = sme /\ print_every t = pe /\
  loss t = [] /\ perplexity t = [].
Proof.
  intros Hinit. pose proof (init_fields env _ _ _ _ _ _ _ _ _ _ Hinit) as ->.
  unfold __init__, _set_random_seeds in Hinit. rewrite bind_modify in Hinit.
  assert (forall k x (w1 w2 : World F),
             lift (subscript (Some ps) k) w1 = (Ok x, w2) ->
             is_Some (ps !! k) /\ w2 = w1) as Hkey.
  { intros k x w1 w2 Hk. apply lift_Ok in Hk as [Hk ->]. split; [|reflexivity].
    cbn in Hk. destruct (ps !! k); [eauto|discriminate]. }
  apply bind_Ok in Hinit as (x1 & w1 & H1 & Hinit). apply Hkey in H1 as [K1 ->].
  apply bind_Ok in Hinit as (x2 & w2 & H2 & Hinit). apply Hkey in H2 as [K2 ->].
  apply bind_Ok in Hinit as (x3 & w3 & H3 & Hinit). apply Hkey in H3 as [K3 ->].
  apply bind_Ok in Hinit as (x4 & w4 & H4 & Hinit). apply Hkey in H4 as [K4 ->].
  apply bind_Ok in Hinit as (x5 & w5 & H5 & Hinit). apply Hkey in H5 as [K5 ->].
  apply bind_Ok in Hinit as (lm & w6 & Hlm & Hinit). apply lift_Ok in Hlm as [_ ->].
  apply bind_Ok in Hinit as (m & w7 & Hcuda & Hinit).
  assert (w7 = add_event (Seeded seed) w) as ->.
  { destruct (USE_CUDA env); [apply lift_Ok in Hcuda|apply ret_Ok in Hcuda];
      apply Hcuda. }
  injection Hinit as <-.
  split; [repeat constructor; assumption|]. repeat split.
Qed.

End MoreFacts.

(** ** The variant of questions and answers in eval *)

Section VariantFacts.
Context {F : Type} `{FloatOps F} `{NumpyOps F} (env : Env F).

Local Abbreviation C := (env_constants env).
Local Open Scope list_scope.

Lemma preserves_bind_assoc {S A B D} (P : S -> Prop) (m : Action S A)
    (f : A -> Action S B) (k : B -> Action S D) :
  preserves P (m ≫= (fun a => f a ≫= k)) -> preserves P ((m ≫= f) ≫= k).
Proof.
  intros Hkeep s Hs. specialize (Hkeep s Hs). revert Hkeep.
  unfold mbind, action_bind. destruct (m s) as [[a|e] s1]; trivial.
Qed.

Definition question_answers (m : pyobj F) : Prop :=
  py_eq m (LM_ANSWERS C) = false /\
  py_eq m (LM_QUESTION_ANSWERS C) = true /\
  py_eq m (LM_QUESTION_ANSWERS_REVIEWS C) = false.

(** A call of the model that was given questions and no reviews. *)
Definition with_question_without_reviews (e : event F) : Prop :=
  match e with
  | ModelCalled a => is_Some (m_question a) /\ m_review a = NoReviews
  | _ => True
  end.

Lemma eval_step_question_answers s0 item acc :
  question_answers (model (self s0)) ->
  preserves (trace with_question_without_reviews s0) (eval_step env item acc).
Proof.
  intros (HA & HQA & HQAR).
  destruct item as [batch_itr inp]. destruct acc as [[fr ls] ps].
  unfold eval_step.
  apply (preserves_gets_known _ _ (model (self s0)));
    [intros s Hs; apply (trace_model _ _ _ Hs)|].
  apply preserves_bind; [preserve|intros [[answer_seqs answer_lengths] fr1]].
  apply preserves_bind; [preserve|intros answer_var].
  rewrite HA, HQAR.
  apply preserves_bind_assoc. apply preserves_bind; [preserve|intros raw].
  apply preserves_bind_assoc. apply preserves_bind; [preserve|intros q].
  apply preserves_ret_bind. cbv zeta. apply preserves_ret_bind.
  unfold call_model, print.
  preserve; try (apply trace_every; preserve);
    try (apply trace_emit; cbn; eauto).
Qed.

(** X15.  Under the variant of questions and answers every call of the
    model that eval makes is given question sequences and None for the
    reviews. *)
Theorem eval_question_answers (s : state F) :
  question_answers (model (self s)) ->
  trace with_question_without_reviews s (snd (eval env s)).
Proof.
  intros Hvariant.
  assert (preserves (trace with_question_without_reviews s) (eval env)) as Hkeep.
  { unfold eval, eval_loop, _print_info, print.
    preserve; try (apply eval_step_question_answers; assumption);
      try (apply trace_emit; cbn; trivial). }
  apply Hkeep, trace_refl.
Qed.

End VariantFacts.

(** X15 at a trainer of the variant of questions and answers with one
    batch. *)
Lemma eval_question_answers_witness :
  let s := {| self := Example.trainer0 (PyObj (Example.net "LM_QUESTION_ANSWERS" 2))
                        [BatchQA Example.answers2 [2; 1] Example.answers2];
              world := Example.world0 |} in
  trace with_question_without_reviews s (snd (eval Example.env0 s)).
Proof.
  cbv zeta. apply eval_question_answers. repeat split.
Defined.

(** X11 at a trainer whose params is None. *)
Lemma save_model_without_model_name_witness :
  let t := {| save_model_every := 1; print_every := 100; params := None;
              dataloader := []; vocab := None; model := PyNone; loss := [];
              perplexity := []; criterion := Example.nll; optimizer := None;
              vocabs := None |} in
  let s := {| self := t; world := Example.world0 |} in
  save_model Example.env0 s = (Err (NotSubscriptable TNone), s).
Proof.
  cbv zeta. apply save_model_without_model_name. reflexivity.
Defined.

(** X12 at the model name lm on an empty file system. *)
Lemma save_model_makes_the_directory_witness :
  let s := {| self := Example.trainer0 (PyObj (Example.net "LM_ANSWERS" 2)) [];
              world := Example.world0 |} in
  fst (save_model Example.env0 s) = Err (UnsupportedOperand "&" TStr TTuple) /\
  path_exists "saved_models/lm/2018-04-09-17-05-00"
    (world (snd (save_model Example.env0 s))) = true.
Proof.
  cbv zeta.
  set (s := {| self := _; world := _ |}).
  destruct (save_model_makes_the_directory Example.env0 s (PStr "lm") eq_refl)
    as (Hmade & _ & _).
  destruct (_ensure_path "saved_models/lm/2018-04-09-17-05-00" s)
    as [r s1] eqn:Hensure.
  assert (r = Ok tt) as ->.
  { change r with (fst (r, s1)). rewrite <- Hensure. vm_compute. reflexivity. }
  destruct (Hmade tt s1 Hensure) as [-> Hexists].
  split; [reflexivity|exact Hexists].
Defined.

(** X10 at a directory two levels down an empty file system. *)
Lemma ensure_path_is_idempotent_witness :
  let s := {| self := Example.trainer0 PyNone []; world := Example.world0 |} in
  let s1 := snd (_ensure_path "saved_models/lm" s) in
  fst (_ensure_path "saved_models/lm" s) = Ok tt /\
  dirs (world s1) = {["saved_models"; "saved_models/lm"]} /\
  path_exists "saved_models/lm" (world s1) = true /\
  _ensure_path "saved_models/lm" s1 = (Ok tt, s1).
Proof.
  cbv zeta.
  set (s := {| self := _; world := _ |}).
  assert (fst (_ensure_path "saved_models/lm" s) = Ok tt) as Hfst
    by (vm_compute; reflexivity).
  split; [exact Hfst|]. split; [vm_compute; reflexivity|].
  destruct (_ensure_path "saved_models/lm" s) as [r s1] eqn:Hensure.
  cbn in Hfst. subst r.
  destruct (ensure_path_is_idempotent "saved_models/lm" s tt s1 Hensure)
    as (Hexists & Hagain & _).
  split; [exact Hexists|exact Hagain].
Defined.

(** X13 at a trainer with an empty loader. *)
Lemma eval_of_an_empty_loader_witness :
  fst (eval Example.env0
         {| self := Example.trainer0 (PyObj (Example.net "LM_ANSWERS" 2)) [];
            world := Example.world0 |}) = Ok tt.
Proof.
  rewrite eval_of_an_empty_loader by reflexivity. reflexivity.
Defined.

(** X14 at a constructor call on params that has the five keys. *)
Lemma init_reads_the_model_hyperparameters_witness :
  exists t w,
    __init__ Example.env0 [] Example.params0 7 1 100 None None Example.world0
    = (Ok t, w) /\
    Forall (fun k => is_Some (Example.params0 !! k))
      ["vocab_size"; "hdim"; "output_max_len"; "h_layers"; "dropout"] /\
    w = add_event (Seeded 7) Example.world0.
Proof.
  eexists _, _. split; [reflexivity|].
  edestruct (init_reads_the_model_hyperparameters Example.env0 [] Example.params0
               7 1 100 None None Example.world0) as (Hkeys & Hworld & _);
    [reflexivity|].
  split; [exact Hkeys|exact Hworld].
Defined.

(** X18 at a trainer of the answers-only variant with one batch. *)
Lemma eval_loop_length_witness :
  let s := {| self := Example.trainer0 (PyObj (Example.net "LM_ANSWERS" 2))
                        [BatchA Example.answers2 [2; 1]];
              world := Example.world0 |} in
  fst (eval_loop Example.env0 s) = Ok ([1%Q], [2%Q]) /\
  length [1%Q] = length (dataloader (self s)).
Proof.
  cbv zeta.
  set (s := {| self := _; world := _ |}).
  assert (fst (eval_loop Example.env0 s) = Ok ([1%Q], [2%Q])) as Hfst
    by (vm_compute; reflexivity).
  split; [exact Hfst|].
  apply (eval_loop_length Example.env0 s [1%Q] [2%Q] (snd (eval_loop Example.env0 s))).
  destruct (eval_loop Example.env0 s) as [r s']. cbn in Hfst. rewrite Hfst.
  reflexivity.
Defined.

(** X19 at the same trainer. *)
Lemma eval_logs_means_witness :
  let s := {| self := Example.trainer0 (PyObj (Example.net "LM_ANSWERS" 2))
                        [BatchA Example.answers2 [2; 1]];
              world := Example.world0 |} in
  exists ls ps s1,
    eval_loop Example.env0 s = (Ok (ls, ps), s1) /\
    events (world (snd (eval Example.env0 s)))
    = (events (world s1) ++
       [Printed "Epoch = %d, [%s] Loss = %.2f"
          [AInt 1; AStr "Development"; AFloat (np_mean ls)];
        Printed "Epoch = %d, [%s] Perplexity = %.2f"
          [AInt 1; AStr "Development"; AFloat (np_mean ps)]])%list.
Proof.
  cbv zeta.
  set (s := {| self := _; world := _ |}).
  assert (fst (eval Example.env0 s) = Ok tt) as Hfst by (vm_compute; reflexivity).
  apply (eval_logs_means Example.env0 s (snd (eval Example.env0 s))).
  destruct (eval Example.env0 s) as [r s']. cbn in Hfst. rewrite Hfst.
  reflexivity.
Defined.

(** X20 at a call that is given questions and reviews all the same. *)
Lemma train_batch_answers_only_witness :
  let s := {| self := set_optimizer (Some {| opt_lr := PFloat (1 # 2)%Q |})
                        (Example.trainer0 (PyObj (Example.net "LM_ANSWERS" 2)) []);
              world := Example.world0 |} in
  trace without_question_and_reviews s
    (snd (train_batch Example.env0 (OfSeqs Example.answers2)
            (Reviews [Example.answers2]) (OfSeqs Example.answers2) [2; 1] s)).
Proof.
  cbv zeta.
  apply train_batch_answers_only; [repeat split|apply trace_refl].
Defined.

(** X21 at a trainer of the answers-only variant with one batch. *)
Lemma eval_answers_only_witness :
  let s := {| self := Example.trainer0 (PyObj (Example.net "LM_ANSWERS" 2))
                        [BatchA Example.answers2 [2; 1]];
              world := Example.world0 |} in
  trace without_question_and_reviews s (snd (eval Example.env0 s)).
Proof.
  cbv zeta. apply eval_answers_only. repeat split.
Defined.

(** * The claims *)

(** C1 (the code departs from the claim).  The masked loss of the code is
    not the reference masked NLL: its loop runs once per example of the
    batch, not once per output timestep.  On four output timesteps and two
    examples of lengths 4 and 1 the code adds the criterion at timesteps 0
    and 1 only and returns 2/4, where the reference adds all four timesteps
    and gives 4/4. *)
Theorem batch_loss_stops_at_batch_size :
  let outputs := replicate 4 [Example.scores; Example.scores] in
  let targets := [[0; 0; 0; 0]; [0; 0; 0; 0]] in
  _batch_loss Example.nll outputs [4; 1] targets = Ok (LossVar (1 # 2)%Q) /\
  masked_nll_reference Example.nll outputs [4; 1] targets = Ok (LossVar 1%Q) /\
  ~ ((1 # 2) == 1)%Q.
Proof.
  cbv zeta. split; [|split].
  - vm_compute. reflexivity.
  - vm_compute. reflexivity.
  - intros Heq. vm_compute in Heq. discriminate.
Qed.

(** C8 (the code departs from the claim).  With three examples, of lengths
    3, 1 and 1, and two output timesteps, the loop of the code reaches index
    2 and reads outputs[2], past the end of the outputs: IndexError.  The
    reference, which walks the two output timesteps, returns a loss. *)
Theorem batch_loss_reads_past_outputs :
  let outputs := replicate 2 (replicate 3 Example.scores) in
  let targets := replicate 3 [0; 0; 0] in
  _batch_loss Example.nll outputs [3; 1; 1] targets = Err IndexError /\
  masked_nll_reference Example.nll outputs [3; 1; 1] targets = Ok (LossVar 1%Q).
Proof.
  cbv zeta. split; vm_compute; reflexivity.
Qed.

(** C2 (the code departs from the claim).  A run of train whose decay
    epoch is epoch 0 enters that epoch and raises before its decay branch:
    with no batch, in the checkpoint at the third file name; with a batch, at
    the call of train_batch.  The optimizer the run leaves is the one of the
    first call of _set_optimizer, at the configured rate 1/2, not at
    1/2 * 1/2: no optimizer at the decayed rate is ever installed. *)
Theorem train_never_reaches_the_decayed_rate :
  let m := PyObj (Example.net "LM_ANSWERS" 2) in
  let no_batch := {| self := Example.trainer0 m []; world := Example.world0 |} in
  let one_batch := {| self := Example.trainer0 m [BatchA Example.answers2 [2; 1]];
                      world := Example.world0 |} in
  Example.params0 !! "decay_start_epoch" = Some (PInt 0) /\
  Example.params0 !! "lr" = Some (PFloat (1 # 2)%Q) /\
  Example.params0 !! "lr_decay" = Some (PFloat (1 # 2)%Q) /\
  fst (train Example.env0 no_batch) = Err (UnsupportedOperand "&" TStr TTuple) /\
  events (world (snd (train Example.env0 no_batch))) = [Printed "Epoch: %d" [AInt 0]] /\
  optimizer (self (snd (train Example.env0 no_batch)))
    = Some {| opt_lr := PFloat (1 # 2)%Q |} /\
  fst (train Example.env0 one_batch) = Err (UnboundLocalError "quesion_seqs") /\
  optimizer (self (snd (train Example.env0 one_batch)))
    = Some {| opt_lr := PFloat (1 # 2)%Q |}.
Proof.
  cbv zeta. repeat split; vm_compute; reflexivity.
Qed.

(** C3 (the code departs from the claim).  Under the variant of questions,
    answers and reviews the dispatch of the epoch loop has no branch: its
    third test repeats the tag of the second.  A trainer of that variant
    given one batch of that shape raises at the dispatch, in train and in
    eval, and the model is never called. *)
Theorem reviews_variant_has_no_branch :
  let m := PyObj (Example.net "LM_QUESTION_ANSWERS_REVIEWS" 2) in
  let batch := BatchQAR Example.answers2 [2; 1] Example.answers2 [Example.answers2] in
  let s := {| self := Example.trainer0 m [batch]; world := Example.world0 |} in
  question_answers_reviews Example.env0 m /\
  fst (train Example.env0 s) = Err RaiseNonException /\
  events (world (snd (train Example.env0 s))) = [Printed "Epoch: %d" [AInt 0]] /\
  fst (eval Example.env0 s) = Err RaiseNonException /\
  events (world (snd (eval Example.env0 s))) = [].
Proof.
  cbv zeta. repeat split; vm_compute; reflexivity.
Qed.



(** C5 (the code departs from the claim).  save_model makes the directory
    <base_path>/<model_name>/<timestamp>, with its parents, and then raises on the third file
    name, which is built with & where the first two use %: the call ends
    in TypeError and none of the three artifacts is written. *)
Theorem save_model_writes_no_artifact :
  let s := {| self := Example.trainer0 (PyObj (Example.net "LM_ANSWERS" 2)) [];
              world := Example.world0 |} in
  fst (save_model Example.env0 s) = Err (UnsupportedOperand "&" TStr TTuple) /\
  dirs (world (snd (save_model Example.env0 s)))
    = {["saved_models"; "saved_models/lm"; "saved_models/lm/2018-04-09-17-05-00"]} /\
  map_to_list (files (world (snd (save_model Example.env0 s)))) = [].
Proof.
  cbv zeta. repeat split; vm_compute; reflexivity.
Qed.

(** C6 (the code departs from the claim).  No call of save_model writes the
    hyperparameters artifact: whatever the trainer and its Params, the call
    raises and the files are what they were, so there is no text to parse
    back. *)
Theorem save_model_never_writes_params {F : Type} `{NumpyOps F}
    (env : Env F) (s : state F) :
  (exists e, fst (save_model env s) = Err e) /\
  files (world (snd (save_model env s))) = files (world s).
Proof.
  split; [apply save_model_raises|apply save_model_writes_nothing].
Qed.

(** C7 (the code departs from the claim).  eval does call the model without
    teacher forcing and takes no optimizer step (eval_read_only), and it
    logs the two means at its end (eval_logs_means); but the set it walks is
    self.dataloader.  The dev_loader given to the constructor is stored
    nowhere: a trainer built on a training batch and a dev batch of other
    tokens evaluates the training batch, once, and never the dev batch. *)
Theorem eval_walks_the_training_loader :
  let train_set := [BatchA [[0; 0]; [0; 0]] [2; 1]] in
  let dev_set := [BatchA [[1; 1]; [1; 1]] [2; 2]] in
  let built := __init__ Example.env0 train_set Example.params0 1 1 100
                 (Some dev_set) None Example.world0 in
  exists t,
    fst built = Ok t /\
    dataloader t = train_set /\
    let s := {| self := Example.configured (PyObj (Example.net "LM_ANSWERS" 2)) t;
                world := snd built |} in
    fst (eval Example.env0 s) = Ok tt /\
    Example.model_calls (events (world (snd (eval Example.env0 s))))
    = [ {| m_question := None; m_review := NoReviews;
           m_answer := {| t_cuda := false; t_data := [[0; 0]; [0; 0]] |};
           m_teacher_forcing := false |} ].
Proof.
  cbv zeta. eexists. split; [vm_compute; reflexivity|].
  repeat split; vm_compute; reflexivity.
Qed.

(** C9, as stated, fails: a trainer of no supported variant whose loader is
    empty evaluates without any error. *)
Lemma unsupported_variant_without_batches :
  ~ (forall s : state Q,
        unsupported Example.env0 (model (self s)) ->
        exists e, fst (eval Example.env0 s) = Err e).
Proof.
  intros Hclaim.
  destruct (Hclaim {| self := Example.trainer0 PyNone []; world := Example.world0 |})
    as [e He].
  - repeat split.
  - vm_compute in He. discriminate.
Qed.

(** C9 (amended).  For a trainer whose variant is none of the three and
    whose loader yields at least one batch, eval raises at its first batch
    and nothing has happened; and train, once it has set its optimizer and
    has an epoch to run, raises at its first batch with nothing done but the
    optimizer set and the line of the epoch printed: no batch is trained. *)
Theorem unsupported_variant_aborts_at_first_batch {F : Type} `{FloatOps F}
    `{NumpyOps F} (env : Env F) (s : state F) (b : inputs) (rest : list inputs) :
  unsupported env (model (self s)) ->
  dataloader (self s) = b :: rest ->
  eval env s = (Err RaiseNonException, s) /\
  (forall r s1 n,
      _set_optimizer env (PFloat (f_of_Z 1)) s = (Ok r, s1) ->
      subscript (params (self s)) (EPOCHS (env_constants env)) = Ok (PInt n) ->
      0 < n ->
      train env s
      = (Err RaiseNonException,
         with_world (add_event (Printed "Epoch: %d" [AInt 0])) s1)).
Proof.
  intros (HA & HQA & _) Hdl. split.
  - eapply eval_no_branch; eassumption.
  - intros r s1 n Hset Hepochs Hn. eapply train_no_branch; eassumption.
Qed.

(** C9 (amended) at a trainer whose model compares equal to no tag. *)
Lemma unsupported_variant_aborts_at_first_batch_witness :
  let s := {| self := Example.trainer0 (PyObj (Example.net "other" 2))
                        [BatchA Example.answers2 [2; 1]];
              world := Example.world0 |} in
  fst (eval Example.env0 s) = Err RaiseNonException /\
  fst (train Example.env0 s) = Err RaiseNonException.
Proof.
  cbv zeta.
  set (s := {| self := _; world := _ |}).
  destruct (unsupported_variant_aborts_at_first_batch Example.env0 s
              (BatchA Example.answers2 [2; 1]) [])
    as [Heval Htrain]; [repeat split|reflexivity|].
  split; [rewrite Heval; reflexivity|].
  rewrite (Htrain None
             (with_self (set_optimizer (Some {| opt_lr := PFloat (1 # 2)%Q |})) s) 2);
    [reflexivity|reflexivity|reflexivity|lia].
Defined.

(** C10, as stated, fails for eval: on a freshly constructed trainer with a
    batch to evaluate, eval raises at the dispatch, for raising a str, and
    that is no use of None. *)
Lemma fresh_trainer_eval_uses_no_None :
  ~ (forall t w,
        __init__ Example.env0 [BatchA Example.answers2 [2; 1]] Example.params0
          1 1 100 None None Example.world0 = (Ok t, w) ->
        exists e, fst (eval Example.env0 {| self := t; world := w |}) = Err e /\
                  none_dereference e = true).
Proof.
  intros Hclaim.
  destruct (Hclaim _ _ eq_refl) as (e & He & Hnone).
  vm_compute in He. injection He as <-. discriminate.
Qed.

(** C10 (amended).  When the constructor returns, model, optimizer and
    params are None, whatever the arguments.  On that trainer train raises
    at self.model.parameters() and train_batch at self.optimizer.zero_grad(),
    both on None; eval uses none of the three: over an empty loader it
    returns, and with a batch it raises at the dispatch. *)
Theorem fresh_trainer_fields_are_None {F : Type} `{FloatOps F} `{NumpyOps F}
    (env : Env F) (dl : list inputs) (ps : gmap string (pval F))
    (seed sme pe : Z) (dev : option (list inputs)) (v : option (list string))
    (w : World F) (t : Trainer F) (w' : World F) :
  __init__ env dl ps seed sme pe dev v w = (Ok t, w') ->
  (model t = PyNone /\ optimizer t = None /\ params t = None) /\
  (forall w2,
      train env {| self := t; world := w2 |}
      = (Err (AttributeError TNone "parameters"), {| self := t; world := w2 |})) /\
  (forall q r a l w2,
      train_batch env q r a l {| self := t; world := w2 |}
      = (Err (AttributeError TNone "zero_grad"), {| self := t; world := w2 |})) /\
  (forall w2,
      match dl with
      | [] => fst (eval env {| self := t; world := w2 |}) = Ok tt
      | _ :: _ =>
          eval env {| self := t; world := w2 |}
          = (Err RaiseNonException, {| self := t; world := w2 |})
      end).
Proof.
  intros Hinit. apply init_fields in Hinit. subst t.
  split; [repeat split|]. split; [reflexivity|]. split; [reflexivity|].
  intros w2. destruct dl as [|b rest]; [reflexivity|].
  eapply eval_no_branch; reflexivity.
Qed.

(** C10 (amended) at a constructor call that returns. *)
Lemma fresh_trainer_fields_are_None_witness :
  exists t w,
    __init__ Example.env0 [BatchA Example.answers2 [2; 1]] Example.params0
      1 1 100 None None Example.world0 = (Ok t, w) /\
    model t = PyNone /\ optimizer t = None /\ params t = None /\
    fst (train Example.env0 {| self := t; world := w |})
      = Err (AttributeError TNone "parameters") /\
    fst (eval Example.env0 {| self := t; world := w |}) = Err RaiseNonException.
Proof.
  eexists _, _. split; [reflexivity|].
  edestruct (fresh_trainer_fields_are_None Example.env0
               [BatchA Example.answers2 [2; 1]] Example.params0 1 1 100 None None
               Example.world0) as ((Hm & Ho & Hp) & Htrain & _ & Heval);
    [reflexivity|].
  split; [exact Hm|]. split; [exact Ho|]. split; [exact Hp|].
  split; [rewrite Htrain; reflexivity|].
  rewrite (Heval _). reflexivity.
Defined.
